(** * go_email / python_email: the mail-session and message-parsing layer

    A shallow embedding of [python_email/MailClient.py] and
    [python_email/mail_api.py].

    Conventions.
    - A Python [bytes] payload is a [list byte]; a Python [str] is a Rocq
      [string] holding its UTF-8 text.  IMAP message numbers are ASCII digit
      strings, so [num.decode()] and [email_id.encode('utf-8')] are the
      identity on them.
    - Everything the program does on the network is recorded in a trace of
      [event]s; the elements produced by the streaming generator are events
      of that same trace ([Yield]), so that the order between network
      commands and produced elements is kept.
    - The standard library and third-party functions the program calls
      ([email.message_from_bytes], [email.header.decode_header],
      [bytes.decode], [werkzeug.utils.secure_filename], the MIME
      constructors) are parameters, gathered in [PyLib]; the mail servers
      are parameters too ([ImapServer], [SmtpServer]). *)

From Stdlib Require Import ZArith QArith Qround Qabs Lqa.
From Stdlib Require Import Strings.Byte Strings.Ascii.
From stdpp Require Import gmap strings list fin_maps.

Local Open Scope string_scope.
Local Open Scope list_scope.
Local Open Scope Z_scope.

(** ** Exceptions and the trace monad *)

(** A Python exception: its class name and [str(e)]. *)
Record exn := Exn { exn_class : string; exn_str : string }.

(** [decode_header(None)]: [ecre.search(None)] raises. *)
Definition TypeError_not_str : exn :=
  Exn "TypeError" "expected string or bytes-like object".
(** [msg_data[0][1]] when [msg_data[0]] is [None]. *)
Definition TypeError_not_subscriptable : exn :=
  Exn "TypeError" "'NoneType' object is not subscriptable".
(** [l[0]] on an empty list. *)
Definition IndexError : exn := Exn "IndexError" "list index out of range".

Inductive result (A : Type) : Type :=
| Ret (a : A)
| Raise (e : exn).
Arguments Ret {A} a.
Arguments Raise {A} e.

(** One decoded chunk as [decode_header] returns it: the text is a [str]
    when the header holds no encoded word, [bytes] otherwise; the second
    component is the declared charset, or [None]. *)
Inductive chunk_val :=
| CStr (s : string)
| CBytes (b : list byte).

Abbreviation chunk := (chunk_val * option string)%type.

(** The dictionaries that [list_emails], [list_headers] and the generator
    build.  [s_email_id] is [None] where the key is absent ([list_emails]);
    the other three are Python values that may be [None]. *)
Record Summary := {
  s_email_id : option string;
  s_subject : string;
  s_from : option string;
  s_date : option string
}.

(** What the generator of [/listmails] yields. *)
Inductive yielded :=
| YText (s : string)            (* '[' , ',' , ']' *)
| YSummary (s : Summary)        (* json.dumps(email_info) *)
| YError (msg : string).        (* json.dumps({'error': str(e)}) *)

Inductive event :=
| ImapOpen (ssl : bool)         (* IMAP4_SSL(...) / IMAP4(...) returned *)
| ImapStarttls
| ImapLogin
| ImapSelect (folder : string)
| ImapSearch
| ImapFetch (num spec : string)
| ImapLogout
| SmtpOpen                      (* smtplib.SMTP(...) returned *)
| SmtpEhlo
| SmtpStarttls
| SmtpLogin
| SmtpSendmail
| SmtpQuit
| Yield (y : yielded).

(** A computation: the events it performed, and how it ended. *)
Definition M (A : Type) : Type := list event * result A.

#[global] Instance M_ret : MRet M := λ A a, ([], Ret a).
#[global] Instance M_bind : MBind M := λ A B f m,
  match m with
  | (t, Ret a) => let r := f a in (t ++ r.1, r.2)
  | (t, Raise e) => (t, Raise e)
  end.

Definition raise {A} (e : exn) : M A := ([], Raise e).
Definition emit (ev : event) : M unit := ([ev], Ret tt).
(** Lifting of a pure result (a library call that performs no event). *)
Definition lift {A} (r : result A) : M A := ([], r).
(** A command sent on an open connection: the event is recorded whether
    the command answers or raises. *)
Definition call {A} (ev : event) (outcome : result A) : M A := ([ev], outcome).
Definition command (ev : event) (outcome : option exn) : M unit :=
  call ev (match outcome with None => Ret tt | Some e => Raise e end).
(** A constructor that opens a connection: the event is recorded only
    when it returns. *)
Definition open (ev : event) (outcome : option exn) : M unit :=
  match outcome with None => emit ev | Some e => raise e end.

(** [try: m except Exception as e: h e] *)
Definition try_except {A} (m : M A) (h : exn → M A) : M A :=
  match m with
  | (t, Ret a) => (t, Ret a)
  | (t, Raise e) => let r := h e in (t ++ r.1, r.2)
  end.

(** [try: m finally: (try: fin except: pass)]: [fin] runs on every exit
    of [m] and its own exception is swallowed. *)
Definition finally_swallow {A} (m : M A) (fin : M unit) : M A :=
  (m.1 ++ fin.1, m.2).

(** [print(...)].  The text goes to the standard output, which the trace
    does not record; what bears on the control flow is whether the write
    raises.  [stdout] is [None] when the standard output takes what the
    program prints, and the exception of the write otherwise (a stream
    whose encoding has no Chinese characters, a closed stream): the
    messages of lines 196 and 211 both hold simplified Chinese text, so
    that a stream that refuses one refuses the other. *)
Definition print (stdout : option exn) : M unit :=
  lift (match stdout with None => Ret tt | Some e => Raise e end).

(** ** Computations on the attachment cache

    [attachments_cache] is a dictionary of the module: a view that uses
    it starts from the cache it finds and leaves a cache behind, also
    when it raises. *)
Definition MS (A : Type) : Type :=
  gmap string (list byte) → gmap string (list byte) * M A.

#[global] Instance MS_ret : MRet MS := λ A a cache, (cache, mret a).
#[global] Instance MS_bind : MBind MS := λ A B f m cache,
  let r := m cache in
  match r.2 with
  | (t, Ret a) => let r' := f a r.1 in (r'.1, (t ++ r'.2.1, r'.2.2))
  | (t, Raise e) => (r.1, (t, Raise e))
  end.

(** A computation that does not touch the cache. *)
Definition run {A} (m : M A) : MS A := λ cache, (cache, m).
(** [attachments_cache.get(key)] ([key in attachments_cache] and
    [attachments_cache[key]]). *)
Definition cache_lookup (key : string) : MS (option (list byte)) :=
  λ cache, (cache, mret (cache !! key)).
(** [attachments_cache[key] = data] *)
Definition cache_store (key : string) (data : list byte) : MS unit :=
  λ cache, (<[key := data]> cache, mret tt).

(** [try ... except Exception as e: h e] and
    [try ... finally: (try: fin except: pass)] on such computations. *)
Definition try_except_st {A} (m : MS A) (h : exn → MS A) : MS A := λ cache,
  let r := m cache in
  match r.2 with
  | (t, Ret a) => (r.1, (t, Ret a))
  | (t, Raise e) => let r' := h e r.1 in (r'.1, (t ++ r'.2.1, r'.2.2))
  end.

Definition finally_swallow_st {A} (m : MS A) (fin : M unit) : MS A :=
  λ cache, let r := m cache in (r.1, (r.2.1 ++ fin.1, r.2.2)).

(** ** Python values and operators *)

(** [l[start:]] *)
Definition py_slice_from {A} (start : Z) (l : list A) : list A :=
  let n := Z.of_nat (length l) in
  let i := if start <? 0 then Z.max 0 (n + start) else Z.min start n in
  drop (Z.to_nat i) l.

(** [l[0]] *)
Definition py_index0 {A} (l : list A) : result A :=
  match l with
  | [] => Raise IndexError
  | x :: _ => Ret x
  end.

(** JSON values as [json.loads] gives them, and their truth value: an
    integer or a float other than zero, a non-empty string, list or
    dictionary are true. *)
#[warnings="-register-all"]
Inductive jval :=
| JNull
| JBool (b : bool)
| JNum (n : Z)
| JFloat (q : Q)
| JStr (s : string)
| JArr (l : list jval)
| JObj (m : gmap string jval).

Definition truthy (v : option jval) : bool :=
  match v with
  | None | Some JNull => false
  | Some (JBool b) => b
  | Some (JNum n) => negb (n =? 0)
  | Some (JFloat q) => negb (Qnum q =? 0)
  | Some (JStr s) => negb (String.eqb s "")
  | Some (JArr l) => match l with [] => false | _ => true end
  | Some (JObj m) => match map_to_list m with [] => false | _ => true end
  end.

(** [type(v).__name__] *)
Definition type_name (v : jval) : string :=
  match v with
  | JNull => "NoneType"
  | JBool _ => "bool"
  | JNum _ => "int"
  | JFloat _ => "float"
  | JStr _ => "str"
  | JArr _ => "list"
  | JObj _ => "dict"
  end.

(** [data.get(key)]: only a dictionary has the method. *)
Definition py_get (data : jval) (key : string) : result (option jval) :=
  match data with
  | JObj m => Ret (m !! key)
  | _ =>
      Raise (Exn "AttributeError"
               ("'" +:+ type_name data +:+ "' object has no attribute 'get'"))
  end.

(** Truth value of an optional [str] (query argument, [get_filename()]). *)
Definition str_truthy (v : option string) : bool :=
  match v with
  | None => false
  | Some s => negb (String.eqb s "")
  end.

(** ** Parsed messages *)

(** What the program reads from the headers of a message or of a part. *)
Record Headers := {
  h_subject : option string;       (* msg['Subject'] *)
  h_from : option string;          (* msg.get('From') *)
  h_date : option string;          (* msg.get('Date') *)
  h_maintype : string;             (* get_content_maintype() *)
  h_content_type : string;         (* get_content_type() *)
  h_disposition : option string;   (* get('Content-Disposition') *)
  h_filename : option string       (* get_filename() *)
}.

(** An [email.message.Message]: either its payload is a list of
    sub-messages ([is_multipart()]) or it is a body, given here by its
    transfer-decoded bytes. *)
#[warnings="-register-all"]
Inductive Message :=
| Single (h : Headers) (decoded : list byte)
| Multi (h : Headers) (subparts : list Message).

Definition headers (m : Message) : Headers :=
  match m with Single h _ | Multi h _ => h end.

(** [part.get_payload(decode=True)]: [None] on a multipart payload. *)
Definition get_payload_decode (m : Message) : option (list byte) :=
  match m with
  | Single _ b => Some b
  | Multi _ _ => None
  end.

(** [msg.walk()]: the message, then its sub-parts depth first. *)
Fixpoint walk (m : Message) : list Message :=
  m :: match m with
       | Single _ _ => []
       | Multi _ ps => flat_map walk ps
       end.

(** ** The environment: library functions and servers *)

Record PyLib := {
  message_from_bytes : list byte → Message;
  decode_header : string → result (list chunk);
  bytes_decode : list byte → string → result string;
  secure_filename : string → string;
  (* MIMEMultipart() + headers + attach(MIMEText(body, subtype, 'utf-8'))
     + as_string() *)
  mime_as_string : string → jval → jval → jval → string → result string
}.

(** An item of the data list of an IMAP FETCH response. *)
Inductive fetch_item :=
| FNone
| FPair (raw : list byte).

Record ImapServer := {
  imap_connect : option exn;
  imap_starttls : option exn;
  imap_login : option exn;
  imap_select : string → option exn;
  (* [search(None, 'ALL')] followed by [messages[0].split()] *)
  imap_search : result (list string);
  imap_fetch : string → string → result (list fetch_item);
  imap_logout : option exn
}.

Record SmtpServer := {
  smtp_connect : option exn;
  smtp_ehlo : option exn;
  smtp_starttls : option exn;
  smtp_login : option exn;
  smtp_sendmail : string → jval → string → option exn;
  smtp_quit : option exn
}.

(** [decode_header(h)]: a missing header ([None]) makes the regular
    expression search raise. *)
Definition py_decode_header (lib : PyLib) (h : option string)
  : result (list chunk) :=
  match h with
  | None => Raise TypeError_not_str
  | Some s => decode_header lib s
  end.

(** The three lines that the program repeats for the subject and for
    attachment file names:
<<
    value, encoding = decode_header(h)[0]
    if isinstance(value, bytes):
        value = value.decode(encoding if encoding else 'utf-8')
>> *)
Definition decode_first (lib : PyLib) (h : option string) : M string :=
  chunks ← lift (py_decode_header lib h);
  c ← lift (py_index0 chunks);
  match c.1 with
  | CBytes b =>
      lift (bytes_decode lib b
              (if str_truthy c.2 then default "" c.2 else "utf-8"))
  | CStr s => mret s
  end.

(** [raw_email = msg_data[0][1]] *)
Definition first_raw (msg_data : list fetch_item) : result (list byte) :=
  match msg_data with
  | [] => Raise IndexError
  | FNone :: _ => Raise TypeError_not_subscriptable
  | FPair raw :: _ => Ret raw
  end.

(** [for x in l: body x], collecting what each iteration appends. *)
Fixpoint for_append {A B} (body : A → M B) (l : list A) : M (list B) :=
  match l with
  | [] => mret []
  | x :: l' => y ← body x; ys ← for_append body l'; mret (y :: ys)
  end.

(** The same loop when an iteration may [continue] without appending. *)
Fixpoint for_append_opt {A B} (body : A → M (option B)) (l : list A)
  : M (list B) :=
  match l with
  | [] => mret []
  | x :: l' =>
      y ← body x; ys ← for_append_opt body l';
      mret (match y with Some b => b :: ys | None => ys end)
  end.

(** ** Rounding *)

(** Nearest integer, ties to the even one. *)
Definition round_half_even (q : Q) : Z :=
  let f := Qfloor q in
  match Qcompare (q - inject_Z f) (1 # 2) with
  | Lt => f
  | Gt => f + 1
  | Eq => if Z.even f then f else f + 1
  end.

(** [round(x, 2)], as a number of hundredths over 100.  Python rounds the
    exact value of the float [x] to the nearest multiple of 0.01, ties to
    even, and returns the float nearest to it; [x] is here [size / 1024],
    which is exact in binary floating point. *)
Definition py_round2 (x : Q) : Q :=
  Qmake (round_half_even (x * 100)) 100.

(** ** MailClient.py *)

Module MailClient.

(** The fields of a [MailClient] that the methods read.  The handles
    [self.imap] and [self.smtp] are not kept: a method uses the connection
    it has just opened, which the trace records.  [__del__], which logs
    out when the object is collected, is no exit path of a method: it is
    given after the methods, as a function of what the two handles hold;
    the client of [mail_api] is a module-level object. *)
Record t := {
  email_address : string;
  use_ssl : bool
}.

Section Methods.
Context (lib : PyLib) (self : t) (imap : ImapServer) (smtp : SmtpServer).

Definition connect_imap : M unit :=
  (if use_ssl self then
     open (ImapOpen true) (imap_connect imap)
   else
     open (ImapOpen false) (imap_connect imap);;
     command ImapStarttls (imap_starttls imap));;
  command ImapLogin (imap_login imap).

Definition connect_smtp : M unit :=
  open SmtpOpen (smtp_connect smtp);;
  command SmtpEhlo (smtp_ehlo smtp);;
  command SmtpStarttls (smtp_starttls smtp);;
  command SmtpLogin (smtp_login smtp).

(** The body of the loop of [list_emails] (lines 42-57). *)
Definition list_emails_item (num : string) : M Summary :=
  msg_data ← call (ImapFetch num "(RFC822)")
                  (imap_fetch imap num "(RFC822)");
  raw_email ← lift (first_raw msg_data);
  let msg := message_from_bytes lib raw_email in
  subject ← decode_first lib (h_subject (headers msg));
  let from_ := h_from (headers msg) in
  let date_ := h_date (headers msg) in
  mret {| s_email_id := None; s_subject := subject;
          s_from := from_; s_date := date_ |}.

Definition list_emails (folder : string) (limit : Z) : M (list Summary) :=
  connect_imap;;
  command (ImapSelect folder) (imap_select imap folder);;
  email_ids ← call ImapSearch (imap_search imap);
  emails ← for_append list_emails_item (py_slice_from (- limit) email_ids);
  command ImapLogout (imap_logout imap);;
  mret emails.

Definition HEADER_FIELDS : string :=
  "(BODY[HEADER.FIELDS (SUBJECT FROM DATE FROM)])".

(** The body of the loop of [list_headers] (lines 70-86). *)
Definition list_headers_item (num : string) : M Summary :=
  msg_data ← call (ImapFetch num HEADER_FIELDS)
                  (imap_fetch imap num HEADER_FIELDS);
  raw_email ← lift (first_raw msg_data);
  let msg := message_from_bytes lib raw_email in
  subject ← decode_first lib (h_subject (headers msg));
  let from_ := h_from (headers msg) in
  let date_ := h_date (headers msg) in
  mret {| s_email_id := Some num; s_subject := subject;
          s_from := from_; s_date := date_ |}.

Definition list_headers (folder : string) (limit : Z) : M (list Summary) :=
  connect_imap;;
  command (ImapSelect folder) (imap_select imap folder);;
  email_ids ← call ImapSearch (imap_search imap);
  emails ← for_append list_headers_item (py_slice_from (- limit) email_ids);
  command ImapLogout (imap_logout imap);;
  mret emails.

Definition send_email (to_address subject body : jval) (subtype : string)
  : M unit :=
  connect_smtp;;
  msg ← lift (mime_as_string lib (email_address self)
                to_address subject body subtype);
  command SmtpSendmail
    (smtp_sendmail smtp (email_address self) to_address msg);;
  command SmtpQuit (smtp_quit smtp).

End Methods.

(** [__del__], given what [self.imap] and [self.smtp] hold when the
    object is collected: [None], or the connection that the last
    [connect_imap] / [connect_smtp] assigned.
<<
    try:
        if self.imap: self.imap.logout()
        if self.smtp: self.smtp.quit()
    except:
        pass
>> *)
Definition __del__ (imap : option ImapServer) (smtp : option SmtpServer)
  : M unit :=
  try_except
    (match imap with
     | Some c => command ImapLogout (imap_logout c)
     | None => mret tt
     end;;
     match smtp with
     | Some c => command SmtpQuit (smtp_quit c)
     | None => mret tt
     end)
    (λ _, mret tt).

End MailClient.

(** ** mail_api.py *)

Module mail_api.

(** An entry of the attachment manifest. *)
Record Attachment := {
  filename : string;
  size_kb : Q;
  mime_type : string
}.

(** What a view function returns. *)
Inductive response :=
| RError (status : Z) (msg : string)     (* jsonify({'error': msg}), status *)
| RMessage (msg : string)                (* jsonify({'message': msg}) *)
| RAttachments (l : list Attachment)     (* jsonify(attachments) *)
| RFile (data : list byte) (mimetype : option string)
        (download_name : string).        (* send_file(BytesIO(data), ...) *)

(** [mail_client]: built with the default [use_ssl=True]. *)
Definition EMAIL_ADDRESS : string := "aiteam@primeagencygroup.com".
Definition mail_client : MailClient.t :=
  {| MailClient.email_address := EMAIL_ADDRESS; MailClient.use_ssl := true |}.

Definition HEADER_FIELDS : string :=
  "(BODY[HEADER.FIELDS (SUBJECT FROM DATE)])".

Section Views.
Context (lib : PyLib) (imap : ImapServer) (smtp : SmtpServer)
        (stdout : option exn).

(** [request_json] is what [request.json] does: it raises when the body
    of the request is not JSON, and returns the parsed body otherwise.
    Lines 33-36 run before the [try]. *)
Definition send_mail (request_json : result jval) : M response :=
  data ← lift request_json;
  to_address ← lift (py_get data "to");
  subject ← lift (py_get data "subject");
  body ← lift (py_get data "body");
  if negb (truthy to_address) || negb (truthy subject)
     || negb (truthy body) then
    mret (RError 400 "Missing required fields")
  else
    try_except
      (MailClient.send_email lib mail_client smtp
         (default JNull to_address) (default JNull subject)
         (default JNull body) "plain";;
       mret (RMessage "Email sent successfully"))
      (λ e, mret (RError 500 (exn_str e))).

(** The inner [try] of the loop of [generate] (lines 67-86). *)
Definition generate_item (eid : string) : M unit :=
  msg_data ← call (ImapFetch eid HEADER_FIELDS)
                  (imap_fetch imap eid HEADER_FIELDS);
  raw_email ← lift (first_raw msg_data);
  match raw_email with
  | [] => mret tt                                  (* continue *)
  | _ :: _ =>
      let msg := message_from_bytes lib raw_email in
      subject ← decode_first lib (h_subject (headers msg));
      let from_ := h_from (headers msg) in
      let date_ := h_date (headers msg) in
      emit (Yield (YSummary {| s_email_id := Some eid;
                               s_subject := subject;
                               s_from := from_; s_date := date_ |}))
  end.

(** The loop of [generate], with its variable [first]. *)
Fixpoint generate_loop (first : bool) (email_ids : list string) : M unit :=
  match email_ids with
  | [] => mret tt
  | eid :: rest =>
      (if negb first then emit (Yield (YText ",")) else mret tt);;
      try_except (generate_item eid) (λ _, mret tt);;
      generate_loop false rest
  end.

Definition generate : M unit :=
  try_except
    (open (ImapOpen true) (imap_connect imap);;
     command ImapLogin (imap_login imap);;
     command (ImapSelect "inbox") (imap_select imap "inbox");;
     emit (Yield (YText "["));;
     messages ← call ImapSearch (imap_search imap);
     let email_ids := py_slice_from (-10) messages in
     generate_loop true email_ids;;
     emit (Yield (YText "]"));;
     command ImapLogout (imap_logout imap))
    (λ e, emit (Yield (YError (exn_str e)))).

(** [/listmails]: [limit] is read from the query string (default 5);
    the response streams what [generate] yields. *)
Definition list_mails (limit_arg : option Z) : M unit :=
  let limit := default 5 limit_arg in
  generate.

(** The elements of a trace that were yielded. *)
Definition yields (t : list event) : list yielded :=
  omap (λ ev, match ev with Yield y => Some y | _ => None end) t.

(** The pattern shared by [list_attachments] and [download_attachment]:
<<
  try:
      mail = imaplib.IMAP4_SSL(IMAP_SERVER)
      body
  except Exception as e:
      handler e
  finally:
      try: mail.logout()
      except: pass
>>
    When the constructor raises, [mail] is unbound and [mail.logout()]
    raises [UnboundLocalError], which the bare [except] swallows. *)
Definition with_mail {A} (body : M A) (handler : exn → M A) : M A :=
  match imap_connect imap with
  | Some e => handler e
  | None =>
      finally_swallow
        (try_except (emit (ImapOpen true);; body) handler)
        (command ImapLogout (imap_logout imap))
  end.

(** [len(p) if p else 0] for [p = part.get_payload(decode=True)] *)
Definition payload_size (part : Message) : Z :=
  match get_payload_decode part with
  | Some ((_ :: _) as p) => Z.of_nat (length p)
  | _ => 0
  end.

(** The body of the loop of [list_attachments] (lines 114-132). *)
Definition list_attachments_part (part : Message) : M (option Attachment) :=
  if String.eqb (h_maintype (headers part)) "multipart" then mret None
  else match h_disposition (headers part) with
  | None => mret None
  | Some _ =>
      let part_filename := h_filename (headers part) in
      if str_truthy part_filename then
        part_filename ← decode_first lib part_filename;
        let part_filename := secure_filename lib part_filename in
        let size := payload_size part in
        let mime_type := h_content_type (headers part) in
        mret (Some {| filename := part_filename;
                      size_kb := py_round2 (Qmake size 1024);
                      mime_type := mime_type |})
      else mret None
  end.

Definition list_attachments (email_id : option string) : M response :=
  if negb (str_truthy email_id) then mret (RError 400 "Missing email_id")
  else
    let email_id := default "" email_id in
    with_mail
      (command ImapLogin (imap_login imap);;
       command (ImapSelect "inbox") (imap_select imap "inbox");;
       msg_data ← call (ImapFetch email_id "(RFC822)")
                       (imap_fetch imap email_id "(RFC822)");
       raw_email ← lift (first_raw msg_data);
       let msg := message_from_bytes lib raw_email in
       attachments ← for_append_opt list_attachments_part (walk msg);
       mret (RAttachments attachments))
      (λ e, mret (RError 500 (exn_str e))).

(** [cache_key = f"{email_id}_{filename}"] *)
Definition cache_key (email_id filename : string) : string :=
  email_id +:+ "_" +:+ filename.

(** [with_mail] for a body that uses the cache. *)
Definition with_mail_st {A} (body : MS A) (handler : exn → MS A) : MS A :=
  match imap_connect imap with
  | Some e => handler e
  | None =>
      finally_swallow_st
        (try_except_st (run (emit (ImapOpen true));; body) handler)
        (command ImapLogout (imap_logout imap))
  end.

(** The loop of [download_attachment] over [msg.walk()] (lines 174-208). *)
Fixpoint download_loop (key filename : string) (parts : list Message)
  : MS response :=
  match parts with
  | [] => mret (RError 404 "未找到附件")
  | part :: rest =>
      if String.eqb (h_maintype (headers part)) "multipart" then
        download_loop key filename rest
      else match h_disposition (headers part) with
      | None => download_loop key filename rest
      | Some _ =>
          let part_filename := h_filename (headers part) in
          if str_truthy part_filename then
            part_filename ← run (decode_first lib part_filename);
            let part_filename := secure_filename lib part_filename in
            if String.eqb part_filename filename then
              match get_payload_decode part with
              | Some ((_ :: _) as data) =>
                  cache_store key data;;
                  run (print stdout);;
                  let mime_type :=
                    if String.eqb (h_content_type (headers part)) ""
                    then "application/octet-stream"
                    else h_content_type (headers part) in
                  mret (RFile data (Some mime_type) filename)
              | _ => mret (RError 404 "附件内容为空")
              end
            else download_loop key filename rest
          else download_loop key filename rest
      end
  end.

Definition download_attachment (email_id filename : option string)
  : MS response :=
  if negb (str_truthy email_id) || negb (str_truthy filename) then
    mret (RError 400 "Missing email_id or filename")
  else
    let email_id := default "" email_id in
    let filename := default "" filename in
    let key := cache_key email_id filename in
    cached ← cache_lookup key;
    match cached with
    | Some data => mret (RFile data None filename)
    | None =>
        with_mail_st
          (run (command ImapLogin (imap_login imap));;
           run (command (ImapSelect "inbox") (imap_select imap "inbox"));;
           msg_data ← run (call (ImapFetch email_id "(RFC822)")
                             (imap_fetch imap email_id "(RFC822)"));
           match msg_data with
           | [] | FNone :: _ => mret (RError 404 "无法获取邮件内容")
           | FPair _ :: _ =>
               raw_email ← run (lift (first_raw msg_data));
               let msg := message_from_bytes lib raw_email in
               download_loop key filename (walk msg)
           end)
          (λ e,
             run (print stdout);;        (* print(f"下载附件错误: {str(e)}") *)
             run (print stdout);;        (* print(traceback.format_exc()) *)
             mret (RError 500 (exn_str e)))
    end.

End Views.

End mail_api.

(** ** Concrete libraries and servers

    Instances of the parameters, used to run the program on explicit
    inputs.  The functions below agree with the Python ones on the inputs
    they are run on here. *)

Module Fixtures.

Definition CRLF : string := String "013"%char (String "010"%char "").

(** *** [email.message_from_bytes] on flat messages

    A header block of unfolded [Name: value] lines ended by CRLF, an empty
    line, then the body; no [Content-*] header, so that the message is a
    [text/plain] body with no disposition and no file name. *)

(** The text up to the first CRLF, and the text after it. *)
Fixpoint cut_line (s : string) : string * string :=
  match s with
  | "" => ("", "")
  | String c s' =>
      match c, s' with
      | "013"%char, String "010"%char rest => ("", rest)
      | _, _ => let '(l, r) := cut_line s' in (String c l, r)
      end
  end.

(** The header lines, and the body after the empty line. *)
Fixpoint header_block (fuel : nat) (s : string) : list string * string :=
  match fuel with
  | O => ([], s)
  | S fuel' =>
      let '(l, r) := cut_line s in
      if String.eqb l "" then ([], r)
      else let '(ls, body) := header_block fuel' r in (l :: ls, body)
  end.

(** [Name: value] to [(Name, value)]. *)
Fixpoint cut_field (line : string) : string * string :=
  match line with
  | "" => ("", "")
  | String c s' =>
      match c, s' with
      | ":"%char, String " "%char v => ("", v)
      | ":"%char, v => ("", v)
      | _, _ => let '(n, v) := cut_field s' in (String c n, v)
      end
  end.

Definition field (name : string) (lines : list string) : option string :=
  snd <$> head (filter (λ nv, nv.1 = name) (cut_field <$> lines)).

Definition parse_flat (raw : list byte) : Message :=
  let s := String.string_of_list_byte raw in
  let '(lines, body) := header_block (String.length s) s in
  Single {| h_subject := field "Subject" lines;
            h_from := field "From" lines;
            h_date := field "Date" lines;
            h_maintype := "text";
            h_content_type := "text/plain";
            h_disposition := None;
            h_filename := None |}
         (String.list_byte_of_string body).

(** A flat message as the server sends it. *)
Definition raw_flat (subject : option string) (from_ date_ : string)
  : list byte :=
  String.list_byte_of_string
    (match subject with
     | Some s => "Subject: " +:+ s +:+ CRLF
     | None => ""
     end +:+ "From: " +:+ from_ +:+ CRLF +:+ "Date: " +:+ date_ +:+ CRLF
     +:+ CRLF).

(** *** A multipart message with one attachment

    [multipart/mixed] with a [text/plain] body and an
    [application/octet-stream] part of disposition
    [attachment; filename="../a.txt"] whose base64 payload decodes to
    [hello]. *)
Definition raw_report : list byte :=
  String.list_byte_of_string
    ("Subject: report" +:+ CRLF +:+ "From: a@x.org" +:+ CRLF
     +:+ "Date: d6" +:+ CRLF
     +:+ "Content-Type: multipart/mixed; boundary=B" +:+ CRLF +:+ CRLF
     +:+ "--B" +:+ CRLF +:+ "Content-Type: text/plain" +:+ CRLF +:+ CRLF
     +:+ "see attachment" +:+ CRLF
     +:+ "--B" +:+ CRLF +:+ "Content-Type: application/octet-stream" +:+ CRLF
     +:+ "Content-Disposition: attachment; filename=../a.txt" +:+ CRLF
     +:+ "Content-Transfer-Encoding: base64" +:+ CRLF +:+ CRLF
     +:+ "aGVsbG8=" +:+ CRLF
     +:+ "--B--" +:+ CRLF).

Definition no_headers (maintype content_type : string) : Headers :=
  {| h_subject := None; h_from := None; h_date := None;
     h_maintype := maintype; h_content_type := content_type;
     h_disposition := None; h_filename := None |}.

Definition part_a_txt : Message :=
  Single {| h_subject := None; h_from := None; h_date := None;
            h_maintype := "application";
            h_content_type := "application/octet-stream";
            h_disposition := Some "attachment; filename=../a.txt";
            h_filename := Some "../a.txt" |}
         (String.list_byte_of_string "hello").

Definition msg_report : Message :=
  Multi {| h_subject := Some "report"; h_from := Some "a@x.org";
           h_date := Some "d6";
           h_maintype := "multipart"; h_content_type := "multipart/mixed";
           h_disposition := None; h_filename := None |}
        [ Single (no_headers "text" "text/plain")
                 (String.list_byte_of_string "see attachment");
          part_a_txt ].

(** *** A multipart message with an attachment of 12345 bytes

    One [application/octet-stream] part named [zeros.bin]; its base64
    payload is [AAAA] 4115 times, that is 12345 null bytes. *)
Definition raw_zeros : list byte :=
  String.list_byte_of_string
    ("Subject: zeros" +:+ CRLF +:+ "From: a@x.org" +:+ CRLF
     +:+ "Date: d8" +:+ CRLF
     +:+ "Content-Type: multipart/mixed; boundary=B" +:+ CRLF +:+ CRLF
     +:+ "--B" +:+ CRLF +:+ "Content-Type: application/octet-stream" +:+ CRLF
     +:+ "Content-Disposition: attachment; filename=zeros.bin" +:+ CRLF
     +:+ "Content-Transfer-Encoding: base64" +:+ CRLF +:+ CRLF
     +:+ String.concat "" (replicate 4115 "AAAA") +:+ CRLF
     +:+ "--B--" +:+ CRLF).

Definition part_zeros : Message :=
  Single {| h_subject := None; h_from := None; h_date := None;
            h_maintype := "application";
            h_content_type := "application/octet-stream";
            h_disposition := Some "attachment; filename=zeros.bin";
            h_filename := Some "zeros.bin" |}
         (replicate (Z.to_nat 12345) x00).

Definition msg_zeros : Message :=
  Multi {| h_subject := Some "zeros"; h_from := Some "a@x.org";
           h_date := Some "d8";
           h_maintype := "multipart"; h_content_type := "multipart/mixed";
           h_disposition := None; h_filename := None |}
        [ part_zeros ].

Definition same_bytes (a b : list byte) : bool :=
  String.eqb (String.string_of_list_byte a) (String.string_of_list_byte b).

Definition fx_message_from_bytes (raw : list byte) : Message :=
  if same_bytes raw raw_report then msg_report
  else if same_bytes raw raw_zeros then msg_zeros
  else parse_flat raw.

(** *** [email.header.decode_header] *)

Fixpoint has_encoded_word_start (s : string) : bool :=
  match s with
  | "" => false
  | String c s' =>
      match c, s' with
      | "="%char, String "?"%char _ => true
      | _, _ => has_encoded_word_start s'
      end
  end.

(** A value with no [=?] holds no encoded word and comes back as one
    [str] chunk; the values with encoded words are those of the table. *)
Definition fx_decode_header (s : string) : result (list chunk) :=
  if negb (has_encoded_word_start s) then Ret [(CStr s, None)]
  else if String.eqb s "Re: =?utf-8?b?5L2g5aW9?=" then
    Ret [(CBytes (String.list_byte_of_string "Re: "), None);
         (CBytes [xe4; xbd; xa0; xe5; xa5; xbd], Some "utf-8")]
  else if String.eqb s "=?x-nope?b?aGk=?=" then
    Ret [(CBytes (String.list_byte_of_string "hi"), Some "x-nope")]
  else Raise (Exn "HeaderParseError" "header outside the table").

(** *** [bytes.decode]: UTF-8 text is kept, another codec is unknown. *)
Definition fx_bytes_decode (b : list byte) (codec : string) : result string :=
  if String.eqb codec "utf-8" then Ret (String.string_of_list_byte b)
  else Raise (Exn "LookupError" ("unknown encoding: " +:+ codec)).

(** *** [werkzeug.utils.secure_filename] on ASCII names

    Path separators become spaces, the words are joined by [_], the
    characters outside [A-Za-z0-9_.-] are removed, and leading and
    trailing [.] and [_] are stripped. *)
Definition is_space (c : ascii) : bool :=
  let n := nat_of_ascii c in
  bool_decide (n = 32 ∨ (9 ≤ n ≤ 13) ∨ (28 ≤ n ≤ 31))%nat.

Definition is_safe (c : ascii) : bool :=
  let n := nat_of_ascii c in
  bool_decide ((48 ≤ n ≤ 57) ∨ (65 ≤ n ≤ 90) ∨ (97 ≤ n ≤ 122)
               ∨ n = 95 ∨ n = 46 ∨ n = 45)%nat.

Definition is_dot_or_underscore (c : ascii) : bool :=
  bool_decide (c = "."%char ∨ c = "_"%char).

(** [s.split()]: the maximal runs of non-space characters. *)
Fixpoint split_words (cur : list ascii) (l : list ascii)
  : list (list ascii) :=
  match l with
  | [] => match cur with [] => [] | _ => [reverse cur] end
  | c :: l' =>
      if is_space c then
        match cur with
        | [] => split_words [] l'
        | _ => reverse cur :: split_words [] l'
        end
      else split_words (c :: cur) l'
  end.

Fixpoint join_underscore (ws : list (list ascii)) : list ascii :=
  match ws with
  | [] => []
  | [w] => w
  | w :: ws' => w ++ "_"%char :: join_underscore ws'
  end.

Fixpoint lstrip (l : list ascii) : list ascii :=
  match l with
  | c :: l' => if is_dot_or_underscore c then lstrip l' else l
  | [] => []
  end.

Definition fx_secure_filename (name : string) : string :=
  let l := String.list_ascii_of_string name in
  let l := (λ c, if bool_decide (c = "/"%char) then " "%char else c) <$> l in
  let l := join_underscore (split_words [] l) in
  let l := filter (λ c, is_safe c = true) l in
  String.string_of_list_ascii (reverse (lstrip (reverse (lstrip l)))).

Definition fx_mime_as_string (from_ : string) (to_ subject body : jval)
    (subtype : string) : result string :=
  match to_, subject, body with
  | JStr t, JStr s, JStr b =>
      Ret ("From: " +:+ from_ +:+ CRLF +:+ "To: " +:+ t +:+ CRLF
           +:+ "Subject: " +:+ s +:+ CRLF +:+ CRLF +:+ b)
  | _, _, _ => Raise (Exn "TypeError" "not a string")
  end.

Definition lib : PyLib :=
  {| message_from_bytes := fx_message_from_bytes;
     decode_header := fx_decode_header;
     bytes_decode := fx_bytes_decode;
     secure_filename := fx_secure_filename;
     mime_as_string := fx_mime_as_string |}.

(** *** Servers *)

(** A server that accepts every command; [fetch] does not depend on the
    requested data items. *)
Definition ok_imap (ids : list string)
    (fetch : string → result (list fetch_item)) : ImapServer :=
  {| imap_connect := None; imap_starttls := None; imap_login := None;
     imap_select := λ _, None; imap_search := Ret ids;
     imap_fetch := λ num _, fetch num; imap_logout := None |}.

(** Messages 1, 2, 4 and 5 are well formed; the subject of message 3 is
    an encoded word in a charset that Python does not know; message 6 has
    no [Subject] header; messages 7 and 8 are [raw_report] and
    [raw_zeros].  Another number
    designates no message: the server answers [[None]]. *)
Definition mailbox (num : string) : result (list fetch_item) :=
  if String.eqb num "1" then Ret [FPair (raw_flat (Some "one") "a@x.org" "d1")]
  else if String.eqb num "2" then
    Ret [FPair (raw_flat (Some "two") "b@x.org" "d2")]
  else if String.eqb num "3" then
    Ret [FPair (raw_flat (Some "=?x-nope?b?aGk=?=") "c@x.org" "d3")]
  else if String.eqb num "4" then
    Ret [FPair (raw_flat (Some "four") "d@x.org" "d4")]
  else if String.eqb num "5" then
    Ret [FPair (raw_flat (Some "five") "e@x.org" "d5")]
  else if String.eqb num "6" then
    Ret [FPair (raw_flat None "f@x.org" "d6")]
  else if String.eqb num "7" then Ret [FPair raw_report]
  else if String.eqb num "8" then Ret [FPair raw_zeros]
  else Ret [FNone].

Definition imap_five : ImapServer := ok_imap ["1"; "2"; "3"; "4"; "5"] mailbox.
Definition imap_three : ImapServer := ok_imap ["1"; "2"; "4"] mailbox.
Definition imap_no_subject : ImapServer := ok_imap ["1"; "6"] mailbox.
Definition imap_report : ImapServer := ok_imap ["7"; "8"] mailbox.

(** A host that cannot be reached, and one that rejects the password. *)
Definition imap_down : ImapServer :=
  {| imap_connect := Some (Exn "ConnectionRefusedError" "Connection refused");
     imap_starttls := None; imap_login := None; imap_select := λ _, None;
     imap_search := Ret []; imap_fetch := λ _ _, Ret [FNone];
     imap_logout := None |}.
Definition imap_bad_login : ImapServer :=
  {| imap_connect := None; imap_starttls := None;
     imap_login := Some (Exn "error" "LOGIN failed");
     imap_select := λ _, None; imap_search := Ret [];
     imap_fetch := λ _ _, Ret [FNone]; imap_logout := None |}.

Definition ok_smtp : SmtpServer :=
  {| smtp_connect := None; smtp_ehlo := None; smtp_starttls := None;
     smtp_login := None; smtp_sendmail := λ _ _ _, None;
     smtp_quit := None |}.
(** A relay that refuses the recipient. *)
Definition smtp_refusing : SmtpServer :=
  {| smtp_connect := None; smtp_ehlo := None; smtp_starttls := None;
     smtp_login := None;
     smtp_sendmail :=
       λ _ _ _, Some (Exn "SMTPRecipientsRefused" "recipient refused");
     smtp_quit := None |}.

Definition client : MailClient.t := mail_api.mail_client.

End Fixtures.

(** Further instances, for the properties of the second part. *)
Module MoreFixtures.

(** An attachment whose file name is an encoded word in a charset that
    Python does not know. *)
Definition part_bad_name : Message :=
  Single {| h_subject := None; h_from := None; h_date := None;
            h_maintype := "application";
            h_content_type := "application/pdf";
            h_disposition := Some "attachment; filename==?x-nope?b?aGk=?=";
            h_filename := Some "=?x-nope?b?aGk=?=" |}
         (String.list_byte_of_string "%PDF").

Definition msg_bad_name : Message :=
  Multi {| h_subject := Some "bad name"; h_from := Some "a@x.org";
           h_date := Some "d9";
           h_maintype := "multipart"; h_content_type := "multipart/mixed";
           h_disposition := None; h_filename := None |}
        [ Fixtures.part_a_txt; part_bad_name ].

Definition raw_bad_name : list byte := String.list_byte_of_string "bad name".

(** A message that forwards another one as an attachment: a
    [message/rfc822] part named [fwd.eml], whose payload is the list of
    the one forwarded message; the body of that message has 12345
    bytes. *)
Definition raw_fwd : list byte :=
  String.list_byte_of_string
    ("Subject: fwd" +:+ Fixtures.CRLF +:+ "From: a@x.org" +:+ Fixtures.CRLF
     +:+ "Date: d10" +:+ Fixtures.CRLF
     +:+ "Content-Type: multipart/mixed; boundary=B" +:+ Fixtures.CRLF
     +:+ Fixtures.CRLF
     +:+ "--B" +:+ Fixtures.CRLF
     +:+ "Content-Type: message/rfc822" +:+ Fixtures.CRLF
     +:+ "Content-Disposition: attachment; filename=fwd.eml" +:+ Fixtures.CRLF
     +:+ Fixtures.CRLF
     +:+ "Subject: inner" +:+ Fixtures.CRLF
     +:+ "From: b@x.org" +:+ Fixtures.CRLF +:+ Fixtures.CRLF
     +:+ String.concat "" (replicate (Z.to_nat 12345) "x") +:+ Fixtures.CRLF
     +:+ "--B--" +:+ Fixtures.CRLF).

Definition msg_inner : Message :=
  Single {| h_subject := Some "inner"; h_from := Some "b@x.org";
            h_date := None;
            h_maintype := "text"; h_content_type := "text/plain";
            h_disposition := None; h_filename := None |}
         (replicate (Z.to_nat 12345) "x"%byte).

Definition part_fwd : Message :=
  Multi {| h_subject := None; h_from := None; h_date := None;
           h_maintype := "message"; h_content_type := "message/rfc822";
           h_disposition := Some "attachment; filename=fwd.eml";
           h_filename := Some "fwd.eml" |}
        [ msg_inner ].

Definition msg_fwd : Message :=
  Multi {| h_subject := Some "fwd"; h_from := Some "a@x.org";
           h_date := Some "d10";
           h_maintype := "multipart"; h_content_type := "multipart/mixed";
           h_disposition := None; h_filename := None |}
        [ part_fwd ].

(** A message with the two attachments of [Fixtures]: [../a.txt] of 5
    bytes and [zeros.bin] of 12345 bytes. *)
Definition raw_two : list byte :=
  String.list_byte_of_string
    ("Subject: two" +:+ Fixtures.CRLF +:+ "From: a@x.org" +:+ Fixtures.CRLF
     +:+ "Date: d11" +:+ Fixtures.CRLF
     +:+ "Content-Type: multipart/mixed; boundary=B" +:+ Fixtures.CRLF
     +:+ Fixtures.CRLF
     +:+ "--B" +:+ Fixtures.CRLF
     +:+ "Content-Type: application/octet-stream" +:+ Fixtures.CRLF
     +:+ "Content-Disposition: attachment; filename=../a.txt" +:+ Fixtures.CRLF
     +:+ "Content-Transfer-Encoding: base64" +:+ Fixtures.CRLF
     +:+ Fixtures.CRLF +:+ "aGVsbG8=" +:+ Fixtures.CRLF
     +:+ "--B" +:+ Fixtures.CRLF
     +:+ "Content-Type: application/octet-stream" +:+ Fixtures.CRLF
     +:+ "Content-Disposition: attachment; filename=zeros.bin" +:+ Fixtures.CRLF
     +:+ "Content-Transfer-Encoding: base64" +:+ Fixtures.CRLF
     +:+ Fixtures.CRLF
     +:+ String.concat "" (replicate 4115 "AAAA") +:+ Fixtures.CRLF
     +:+ "--B--" +:+ Fixtures.CRLF).

Definition msg_two : Message :=
  Multi {| h_subject := Some "two"; h_from := Some "a@x.org";
           h_date := Some "d11";
           h_maintype := "multipart"; h_content_type := "multipart/mixed";
           h_disposition := None; h_filename := None |}
        [ Fixtures.part_a_txt; Fixtures.part_zeros ].

(** [MIMEMultipart] and [MIMEText] take a missing value: a header set to
    [None] is written empty, and so is the text. *)
Definition text_of (v : jval) : result string :=
  match v with
  | JStr s => Ret s
  | JNull => Ret ""
  | _ => Raise (Exn "TypeError" "not a string")
  end.

Definition fx_mime_as_string (from_ : string) (to_ subject body : jval)
    (subtype : string) : result string :=
  match text_of to_, text_of subject, text_of body with
  | Ret t, Ret s, Ret b =>
      Ret ("From: " +:+ from_ +:+ Fixtures.CRLF +:+ "To: " +:+ t
           +:+ Fixtures.CRLF +:+ "Subject: " +:+ s +:+ Fixtures.CRLF
           +:+ Fixtures.CRLF +:+ b)
  | Raise e, _, _ | _, Raise e, _ | _, _, Raise e => Raise e
  end.

(** The library of [Fixtures] with a parser that knows the messages
    above and with the MIME construction above. *)
Definition lib : PyLib :=
  {| message_from_bytes := λ raw,
       if Fixtures.same_bytes raw raw_bad_name then msg_bad_name
       else if Fixtures.same_bytes raw raw_fwd then msg_fwd
       else if Fixtures.same_bytes raw raw_two then msg_two
       else Fixtures.fx_message_from_bytes raw;
     decode_header := Fixtures.fx_decode_header;
     bytes_decode := Fixtures.fx_bytes_decode;
     secure_filename := Fixtures.fx_secure_filename;
     mime_as_string := fx_mime_as_string |}.

Definition imap_two : ImapServer :=
  Fixtures.ok_imap ["11"] (λ _, Ret [FPair raw_two]).

(** A relay that accepts the sender; [sendmail] iterates over the
    recipients, which raises when the recipient is [None]. *)
Definition smtp_none_recipient : SmtpServer :=
  {| smtp_connect := None; smtp_ehlo := None; smtp_starttls := None;
     smtp_login := None;
     smtp_sendmail := λ _ to_ _,
       match to_ with
       | JNull => Some (Exn "TypeError" "'NoneType' object is not iterable")
       | _ => None
       end;
     smtp_quit := None |}.

(** A standard output that cannot encode Chinese text. *)
Definition ascii_stdout : option exn :=
  Some (Exn "UnicodeEncodeError"
          "'ascii' codec can't encode characters in position 0-3").

Definition imap_bad_name : ImapServer :=
  Fixtures.ok_imap ["9"] (λ _, Ret [FPair raw_bad_name]).

(** A relay that accepts the message and then fails on [QUIT]. *)
Definition smtp_quit_fails : SmtpServer :=
  {| smtp_connect := None; smtp_ehlo := None; smtp_starttls := None;
     smtp_login := None; smtp_sendmail := λ _ _ _, None;
     smtp_quit := Some (Exn "SMTPServerDisconnected" "Connection closed") |}.

(** A server whose [LOGOUT] fails. *)
Definition imap_logout_fails : ImapServer :=
  {| imap_connect := None; imap_starttls := None; imap_login := None;
     imap_select := λ _, None; imap_search := Ret [];
     imap_fetch := λ _ _, Ret [FNone];
     imap_logout := Some (Exn "abort" "socket error") |}.

Definition full_request : gmap string jval :=
  <["to" := JStr "z@x.org"]>
    (<["subject" := JStr "hi"]> (<["body" := JStr "text"]> ∅)).

End MoreFixtures.

(** ** Notions used by the statements *)

Definition is_open (ev : event) : bool :=
  match ev with ImapOpen _ | SmtpOpen => true | _ => false end.

Definition is_close (ev : event) : bool :=
  match ev with ImapLogout | SmtpQuit => true | _ => false end.

(** How many connections a trace opens, and how many it closes. *)
Definition opened (t : list event) : nat := length (List.filter is_open t).
Definition closed (t : list event) : nat := length (List.filter is_close t).

(** The summaries among the yielded elements. *)
Definition summaries (ys : list yielded) : list Summary :=
  omap (λ y, match y with YSummary s => Some s | _ => None end) ys.

(** A header value decoded in full, as the specification words it: each
    chunk of the value is decoded with its declared charset, UTF-8 when
    none is declared, and the texts are put together. *)
Definition decode_chunk (lib : PyLib) (c : chunk) : result string :=
  match c.1 with
  | CBytes b =>
      bytes_decode lib b (if str_truthy c.2 then default "" c.2 else "utf-8")
  | CStr s => Ret s
  end.

Fixpoint decode_chunks (lib : PyLib) (cs : list chunk) : result string :=
  match cs with
  | [] => Ret ""
  | c :: cs' =>
      match decode_chunk lib c, decode_chunks lib cs' with
      | Ret s, Ret s' => Ret (s +:+ s')
      | Raise e, _ => Raise e
      | _, Raise e => Raise e
      end
  end.

Definition decode_whole (lib : PyLib) (h : string) : result string :=
  match decode_header lib h with
  | Ret cs => decode_chunks lib cs
  | Raise e => Raise e
  end.

(** What one iteration of the generator contributes when it is run on
    its own: the summary it yields, if it yields one. *)
Definition item_summary (lib : PyLib) (imap : ImapServer) (eid : string)
  : option Summary :=
  head (summaries (mail_api.yields (mail_api.generate_item lib imap eid).1)).

(** The separators among the yielded elements. *)
Definition is_comma (y : yielded) : bool :=
  match y with YText s => String.eqb s "," | _ => false end.
Definition commas (ys : list yielded) : nat := length (List.filter is_comma ys).

(** The identifiers that the summaries carry. *)
Definition summary_ids (l : list Summary) : list (option string) :=
  s_email_id <$> l.

(** A part that the manifest and the download consider: not a multipart
    container, with a [Content-Disposition] header and a non-empty file
    name. *)
Definition is_candidate (part : Message) : bool :=
  negb (String.eqb (h_maintype (headers part)) "multipart")
  && bool_decide (h_disposition (headers part) ≠ None)
  && str_truthy (h_filename (headers part)).

(** Whether a part answers to a file name: it is one that the loops
    consider, its file name decodes, and the sanitized decoded name is the
    one asked for. *)
Definition has_name (lib : PyLib) (filename : string) (part : Message)
  : bool :=
  is_candidate part
  && match decode_first lib (h_filename (headers part)) with
     | (_, Ret name) => String.eqb (secure_filename lib name) filename
     | (_, Raise _) => false
     end.

(** [part.get_content_type() or 'application/octet-stream'] *)
Definition mime_type_of (part : Message) : string :=
  if String.eqb (h_content_type (headers part)) ""
  then "application/octet-stream"
  else h_content_type (headers part).

(** * Properties *)

Section Monad.
Context {A B : Type}.

Lemma bind_ret (t : list event) (a : A) (f : A → M B) :
  mbind f (t, Ret a) = (t ++ (f a).1, (f a).2).
Proof. done. Qed.

Lemma bind_raise (t : list event) (e : exn) (f : A → M B) :
  mbind f (t, Raise e) = (t, Raise e).
Proof. done. Qed.

Lemma bind_lift_ret (a : A) (f : A → M B) : lift (Ret a) ≫= f = f a.
Proof. unfold lift. rewrite bind_ret. by destruct (f a). Qed.

Lemma bind_inv_ret (m : M A) (f : A → M B) (t : list event) (b : B) :
  mbind f m = (t, Ret b) →
  ∃ t1 a t2, m = (t1, Ret a) ∧ f a = (t2, Ret b) ∧ t = t1 ++ t2.
Proof.
  destruct m as [t1 [a|e]]; [|done].
  rewrite bind_ret. destruct (f a) as [t2 r] eqn:E. simpl.
  intros [= <- ->]. by exists t1, a, t2.
Qed.

Lemma bind_raises_l (m : M A) (f : A → M B) (e : exn) :
  m.2 = Raise e → (mbind f m).2 = Raise e.
Proof. destruct m as [t [a|e']]; simpl; by intros [= ->]. Qed.
End Monad.

Section Handlers.
Context {A : Type}.

Lemma finally_swallow_inv (m : M A) (fin : M unit) t r :
  finally_swallow m fin = (t, r) → ∃ t1, m = (t1, r) ∧ t = t1 ++ fin.1.
Proof.
  destruct m as [t1 r1]. unfold finally_swallow. simpl.
  intros [= <- <-]. eauto.
Qed.

Lemma try_except_inv (m : M A) (h : exn → M A) t a :
  try_except m h = (t, Ret a) →
  m = (t, Ret a) ∨
  ∃ t1 e t2, m = (t1, Raise e) ∧ h e = (t2, Ret a) ∧ t = t1 ++ t2.
Proof.
  destruct m as [t1 [a1|e]]; simpl.
  - intros [= <- <-]. by left.
  - destruct (h e) as [t2 r] eqn:E. simpl. intros [= <- ->].
    right. by exists t1, e, t2.
Qed.
End Handlers.

Lemma opened_app (t1 t2 : list event) :
  opened (t1 ++ t2) = (opened t1 + opened t2)%nat.
Proof. unfold opened. by rewrite List.filter_app, length_app. Qed.

Lemma closed_app (t1 t2 : list event) :
  closed (t1 ++ t2) = (closed t1 + closed t2)%nat.
Proof. unfold closed. by rewrite List.filter_app, length_app. Qed.

Lemma yields_app (t1 t2 : list event) :
  mail_api.yields (t1 ++ t2) = mail_api.yields t1 ++ mail_api.yields t2.
Proof. apply omap_app. Qed.

Lemma summaries_app (ys1 ys2 : list yielded) :
  summaries (ys1 ++ ys2) = summaries ys1 ++ summaries ys2.
Proof. apply omap_app. Qed.

(** The decoding steps are pure. *)
Lemma decode_first_pure (lib : PyLib) (h : option string) :
  (decode_first lib h).1 = [].
Proof.
  unfold decode_first.
  destruct (py_decode_header lib h) as [cs|e]; [|reflexivity].
  rewrite bind_lift_ret.
  destruct (py_index0 cs) as [c|e]; [|reflexivity].
  rewrite bind_lift_ret. destruct c as [[s|b] enc]; reflexivity.
Qed.

(** ** Loops *)

Section Loops.
Context {A B : Type}.

(** A loop whose iterations perform no event performs none. *)
Lemma for_append_opt_pure (body : A → M (option B)) (l : list A) :
  (∀ x, (body x).1 = []) → (for_append_opt body l).1 = [].
Proof.
  intros Hpure. induction l as [|x l IH]; [reflexivity|].
  simpl. destruct (body x) as [t [y|e]] eqn:E.
  - pose proof (Hpure x) as Hx. rewrite E in Hx. simpl in Hx. subst t.
    rewrite bind_ret. simpl.
    destruct (for_append_opt body l) as [t' [ys|e]]; simpl in *;
      subst; reflexivity.
  - pose proof (Hpure x) as Hx. rewrite E in Hx. simpl in Hx. by subst t.
Qed.

(** When the loop returns, every iteration has returned, and the list
    holds what the iterations appended, in the order of the iterations. *)
Lemma for_append_ret (body : A → M B) (l : list A) t (ys : list B) :
  for_append body l = (t, Ret ys) →
  Forall2 (λ x y, ∃ t', body x = (t', Ret y)) l ys.
Proof.
  revert t ys. induction l as [|x l IH]; intros t ys; simpl.
  - intros [= <- <-]. constructor.
  - intros H. apply bind_inv_ret in H as (t1 & y & t2 & Hx & H & ->).
    apply bind_inv_ret in H as (t3 & ys' & t4 & Hl & H & ->).
    injection H as <- <-. constructor; eauto.
Qed.

(** An iteration that raises makes the loop raise. *)
Lemma for_append_raises (body : A → M B) (l : list A) (x : A) (e : exn) :
  x ∈ l → (body x).2 = Raise e → ∃ e', (for_append body l).2 = Raise e'.
Proof.
  intros Hin Hx. induction Hin as [x l|x y l Hin IH]; simpl.
  - exists e. by apply bind_raises_l.
  - destruct (body y) as [t [b|e1]]; [|by exists e1].
    rewrite bind_ret. simpl. destruct (IH Hx) as [e' He'].
    exists e'. by apply bind_raises_l.
Qed.

End Loops.

(** ** Slices *)

Section Slices.
Context {A : Type}.

Lemma py_slice_from_suffix (start : Z) (l : list A) :
  py_slice_from start l `suffix_of` l.
Proof. apply suffix_drop. Qed.

(** [l[-n:]] for a positive [n]: the last [n] items at most. *)
Lemma py_slice_last_length (n : Z) (l : list A) :
  0 < n → Z.of_nat (length (py_slice_from (- n) l)) ≤ n.
Proof.
  intros Hn. unfold py_slice_from.
  destruct (Z.ltb_spec (- n) 0); [|lia].
  rewrite length_drop. lia.
Qed.

(** [l[-0:]] is [l[0:]]: the whole list. *)
Lemma py_slice_zero (l : list A) : py_slice_from (- 0) l = l.
Proof.
  unfold py_slice_from.
  change (- 0 <? 0) with false. cbv beta iota zeta.
  replace (Z.min (- 0) (Z.of_nat (length l))) with 0 by lia.
  reflexivity.
Qed.
End Slices.

(** ** Connections opened and closed *)

(** A trace that neither opens nor closes a connection. *)
Definition quiet (t : list event) : Prop :=
  Forall (λ ev, is_open ev = false ∧ is_close ev = false) t.

Lemma quiet_counts (t : list event) : quiet t → opened t = 0%nat ∧ closed t = 0%nat.
Proof.
  induction 1 as [|ev t [Ho Hc] _ [IHo IHc]]; [done|].
  unfold opened, closed in *. simpl. by rewrite Ho, Hc.
Qed.

Lemma quiet_bind {A B} (m : M A) (f : A → M B) :
  quiet m.1 → (∀ a, quiet (f a).1) → quiet (m ≫= f).1.
Proof.
  intros Hm Hf. destruct m as [t [a|e]]; [|done].
  rewrite bind_ret. simpl. apply Forall_app. split; [done|apply Hf].
Qed.

Lemma quiet_call {A} (ev : event) (r : result A) :
  is_open ev = false → is_close ev = false → quiet (call ev r).1.
Proof. intros. by repeat constructor. Qed.

Lemma quiet_command (ev : event) (o : option exn) :
  is_open ev = false → is_close ev = false → quiet (command ev o).1.
Proof. intros. by apply quiet_call. Qed.

Lemma quiet_pure {A} (m : M A) : m.1 = [] → quiet m.1.
Proof. intros ->. constructor. Qed.

Section Balanced.
Context (lib : PyLib) (imap : ImapServer).

Lemma list_attachments_part_pure (part : Message) :
  (mail_api.list_attachments_part lib part).1 = [].
Proof.
  unfold mail_api.list_attachments_part.
  repeat case_match; try reflexivity.
  destruct (decode_first lib (h_filename (headers part))) as [t [n|e]] eqn:E;
    pose proof (decode_first_pure lib (h_filename (headers part))) as Hp;
    rewrite E in Hp; simpl in Hp; subst t; reflexivity.
Qed.

(** [with_mail] closes the connection it opened, once, however the body
    ends, provided the body itself opens and closes nothing. *)
Lemma with_mail_balanced {A} (body : M A) (handler : exn → M A) :
  quiet body.1 → (∀ e, (handler e).1 = []) →
  let t := (mail_api.with_mail imap body handler).1 in
  opened t = closed t ∧
  (imap_connect imap = None → opened t = 1%nat) ∧
  (imap_connect imap ≠ None → t = []).
Proof.
  intros Hbody Hh. unfold mail_api.with_mail.
  destruct (imap_connect imap) as [e|]; simpl.
  - rewrite Hh. done.
  - apply quiet_counts in Hbody as [Ho Hc].
    destruct body as [tb [a|e]]; simpl in *.
    + change (ImapOpen true :: tb ++ [ImapLogout])
        with ([ImapOpen true] ++ tb ++ [ImapLogout]).
      rewrite !opened_app, !closed_app, Ho, Hc. done.
    + rewrite Hh, app_nil_r.
      change (ImapOpen true :: tb ++ [ImapLogout])
        with ([ImapOpen true] ++ tb ++ [ImapLogout]).
      rewrite !opened_app, !closed_app, Ho, Hc. done.
Qed.

(** [list_attachments] closes what it opens on every exit. *)
Lemma list_attachments_balanced (email_id : option string) :
  let t := (mail_api.list_attachments lib imap email_id).1 in
  opened t = closed t ∧ (opened t ≤ 1)%nat.
Proof.
  unfold mail_api.list_attachments.
  destruct (str_truthy email_id); cbn [negb];
    [|split; [reflexivity|cbv; lia]].
  match goal with
  | |- context [mail_api.with_mail imap ?b ?h] =>
      destruct (with_mail_balanced b h) as (Heq & Hopen & Hnone)
  end.
  - apply quiet_bind; [by apply quiet_command|intros _].
    apply quiet_bind; [by apply quiet_command|intros _].
    apply quiet_bind; [by apply quiet_call|intros msg_data].
    apply quiet_bind; [by apply quiet_pure|intros raw].
    apply quiet_bind; [|intros l; by apply quiet_pure].
    apply quiet_pure, for_append_opt_pure, list_attachments_part_pure.
  - done.
  - split; [done|].
    destruct (imap_connect imap) as [e|] eqn:E.
    + rewrite Hnone; [cbv; lia|done].
    + rewrite Hopen; [lia|done].
Qed.
End Balanced.

(** C1, defect: [list_emails], [list_headers] and [send_email] have no
    cleanup on their exceptional exits.  On the five-message mailbox whose
    third message cannot be decoded, the two listings open a connection
    and raise without logging out; on a relay that refuses the recipient,
    [send_email] opens a connection and raises without quitting.
    ([list_attachments], by [list_attachments_balanced], does close on
    every exit.) *)
Theorem C1_connection_left_open :
  let r1 := MailClient.list_emails Fixtures.lib Fixtures.client
              Fixtures.imap_five "INBOX" 10 in
  let r2 := MailClient.list_headers Fixtures.lib Fixtures.client
              Fixtures.imap_five "INBOX" 10 in
  let r3 := MailClient.send_email Fixtures.lib Fixtures.client
              Fixtures.smtp_refusing (JStr "z@x.org") (JStr "hi")
              (JStr "text") "plain" in
  (opened r1.1 = 1%nat ∧ closed r1.1 = 0%nat
   ∧ r1.2 = Raise (Exn "LookupError" "unknown encoding: x-nope")) ∧
  (opened r2.1 = 1%nat ∧ closed r2.1 = 0%nat
   ∧ r2.2 = Raise (Exn "LookupError" "unknown encoding: x-nope")) ∧
  (opened r3.1 = 1%nat ∧ closed r3.1 = 0%nat
   ∧ r3.2 = Raise (Exn "SMTPRecipientsRefused" "recipient refused")).
Proof. vm_compute. repeat split; reflexivity. Qed.

(** ** The batch listings *)

Lemma bind_always_raises {A B} (m : M A) (f : A → M B) :
  (∀ a, ∃ e, (f a).2 = Raise e) → ∃ e, (m ≫= f).2 = Raise e.
Proof.
  intros Hf. destruct m as [t [a|e]]; [|by exists e].
  rewrite bind_ret. apply Hf.
Qed.

Section Listings.
Context (lib : PyLib) (self : MailClient.t) (imap : ImapServer).

(** When [list_emails] returns, its entries are the summaries of the
    identifiers of the slice, one for one and in the same order. *)
Lemma list_emails_window (folder : string) (limit : Z) t emails :
  MailClient.list_emails lib self imap folder limit = (t, Ret emails) →
  ∃ ids, imap_search imap = Ret ids ∧
    Forall2 (λ num s, ∃ t', MailClient.list_emails_item lib imap num
                             = (t', Ret s))
            (py_slice_from (- limit) ids) emails.
Proof.
  unfold MailClient.list_emails. intros H.
  apply bind_inv_ret in H as (? & ? & ? & _ & H & _).
  apply bind_inv_ret in H as (? & ? & ? & _ & H & _).
  apply bind_inv_ret in H as (? & ids & ? & Hs & H & _).
  apply bind_inv_ret in H as (? & l & ? & Hl & H & _).
  apply bind_inv_ret in H as (? & ? & ? & _ & H & _).
  injection H as _ <-. injection Hs as _ Hs.
  exists ids. split; [done|]. by eapply for_append_ret.
Qed.

(** With a positive limit the batch listing is bounded by it, and its
    entries follow a suffix of the identifiers the server returned. *)
Lemma list_emails_bounded (folder : string) (limit : Z) t emails :
  0 < limit →
  MailClient.list_emails lib self imap folder limit = (t, Ret emails) →
  Z.of_nat (length emails) ≤ limit.
Proof.
  intros Hpos H. apply list_emails_window in H as (ids & _ & Hall).
  rewrite <- (Forall2_length _ _ _ Hall). by apply py_slice_last_length.
Qed.

(** A message without [Subject] makes its iteration raise [TypeError]. *)
Lemma item_without_subject (num : string) raw rest :
  imap_fetch imap num "(RFC822)" = Ret (FPair raw :: rest) →
  h_subject (headers (message_from_bytes lib raw)) = None →
  (MailClient.list_emails_item lib imap num).2 = Raise TypeError_not_str.
Proof.
  intros Hf Hs. unfold MailClient.list_emails_item.
  rewrite Hf. unfold call. rewrite bind_ret. cbn [snd first_raw].
  rewrite bind_lift_ret, Hs. reflexivity.
Qed.

Lemma header_item_without_subject (num : string) raw rest :
  imap_fetch imap num MailClient.HEADER_FIELDS = Ret (FPair raw :: rest) →
  h_subject (headers (message_from_bytes lib raw)) = None →
  (MailClient.list_headers_item lib imap num).2 = Raise TypeError_not_str.
Proof.
  intros Hf Hs. unfold MailClient.list_headers_item.
  rewrite Hf. unfold call. rewrite bind_ret. cbn [snd first_raw].
  rewrite bind_lift_ret, Hs. reflexivity.
Qed.
End Listings.

(** C10: a fetched message that has no [Subject] header makes the
    subject-decoding step run on a missing value and raise [TypeError];
    whenever such a message is among the selected identifiers,
    [list_emails] and [list_headers] end by an exception instead of
    returning summaries. *)
Theorem C10_missing_subject_aborts (lib : PyLib) (self : MailClient.t)
    (imap : ImapServer) (folder : string) (limit : Z)
    (ids : list string) (num : string) :
  imap_search imap = Ret ids →
  num ∈ py_slice_from (- limit) ids →
  (∀ spec, ∃ raw rest,
      imap_fetch imap num spec = Ret (FPair raw :: rest) ∧
      h_subject (headers (message_from_bytes lib raw)) = None) →
  decode_first lib None = ([], Raise TypeError_not_str) ∧
  (∃ e, (MailClient.list_emails lib self imap folder limit).2 = Raise e) ∧
  (∃ e, (MailClient.list_headers lib self imap folder limit).2 = Raise e).
Proof.
  intros Hsearch Hin Hmsg. split; [reflexivity|]. split.
  - unfold MailClient.list_emails.
    apply bind_always_raises; intros _.
    apply bind_always_raises; intros _.
    rewrite Hsearch. unfold call. rewrite bind_ret. cbn [snd].
    destruct (Hmsg "(RFC822)") as (raw & rest & Hf & Hs).
    destruct (for_append_raises (MailClient.list_emails_item lib imap)
                _ num TypeError_not_str Hin) as [e He].
    { by eapply item_without_subject. }
    exists e. by apply bind_raises_l.
  - unfold MailClient.list_headers.
    apply bind_always_raises; intros _.
    apply bind_always_raises; intros _.
    rewrite Hsearch. unfold call. rewrite bind_ret. cbn [snd].
    destruct (Hmsg MailClient.HEADER_FIELDS) as (raw & rest & Hf & Hs).
    destruct (for_append_raises (MailClient.list_headers_item lib imap)
                _ num TypeError_not_str Hin) as [e He].
    { by eapply header_item_without_subject. }
    exists e. by apply bind_raises_l.
Qed.

Lemma C10_witness :
  decode_first Fixtures.lib None = ([], Raise TypeError_not_str) ∧
  (∃ e, (MailClient.list_emails Fixtures.lib Fixtures.client
           Fixtures.imap_no_subject "INBOX" 10).2 = Raise e) ∧
  (∃ e, (MailClient.list_headers Fixtures.lib Fixtures.client
           Fixtures.imap_no_subject "INBOX" 10).2 = Raise e).
Proof.
  apply (C10_missing_subject_aborts Fixtures.lib Fixtures.client
           Fixtures.imap_no_subject "INBOX" 10 ["1"; "6"] "6").
  - reflexivity.
  - vm_compute. apply list_elem_of_In. simpl. tauto.
  - intros spec.
    exists (Fixtures.raw_flat None "f@x.org" "d6"), []. split; reflexivity.
Defined.

(** C2, defect: the limit is not an upper bound.  In [list_emails] the
    slice [email_ids[-limit:]] with [limit = 0] is [email_ids[0:]], the
    whole list: three messages come back for a limit of zero.  In
    [/listmails] the limit read from the request is never used, the slice
    is the constant [[-10:]]: three summaries are produced for a limit of
    two.  (For a positive limit [list_emails_bounded] and
    [list_emails_window] give the bound and the order of the batch
    listing.) *)
Theorem C2_limit_not_respected :
  (∃ t s1 s2 s3,
      MailClient.list_emails Fixtures.lib Fixtures.client
        Fixtures.imap_three "INBOX" 0 = (t, Ret [s1; s2; s3])) ∧
  (∃ s1 s2 s3,
      summaries (mail_api.yields
                   (mail_api.list_mails Fixtures.lib Fixtures.imap_three
                      (Some 2)).1) = [s1; s2; s3]).
Proof. split; vm_compute; eauto 10. Qed.

(** C3, defect: in the batch listings one bad message makes the whole
    call fail.  On the five-message mailbox whose third message cannot be
    decoded, [list_emails] and [list_headers] raise and return no
    summary, whereas the generator of [/listmails], which has the inner
    [try], produces the four other summaries. *)
Theorem C3_bad_message_aborts_batch :
  (MailClient.list_emails Fixtures.lib Fixtures.client
     Fixtures.imap_five "INBOX" 5).2
  = Raise (Exn "LookupError" "unknown encoding: x-nope") ∧
  (MailClient.list_headers Fixtures.lib Fixtures.client
     Fixtures.imap_five "INBOX" 5).2
  = Raise (Exn "LookupError" "unknown encoding: x-nope") ∧
  s_email_id <$> summaries (mail_api.yields
                              (mail_api.generate Fixtures.lib
                                 Fixtures.imap_five).1)
  = [Some "1"; Some "2"; Some "4"; Some "5"].
Proof. vm_compute. repeat split; reflexivity. Qed.

(** ** Header decoding *)

Lemma append_empty_r (s : string) : s +:+ "" = s.
Proof.
  induction s as [|c s IH]; [done|].
  change (String c (s +:+ "") = String c s). by rewrite IH.
Qed.

(** When [decode_header] gives one chunk, the three lines decode the
    whole value. *)
Lemma decode_first_single (lib : PyLib) (h : string) (c : chunk) :
  decode_header lib h = Ret [c] →
  decode_first lib (Some h) = lift (decode_whole lib h).
Proof.
  intros Hd. unfold decode_first, decode_whole, py_decode_header.
  rewrite Hd, bind_lift_ret. cbn [py_index0]. rewrite bind_lift_ret.
  cbn [decode_chunks]. unfold decode_chunk.
  destruct c as [[s|b] enc]; cbn [fst snd].
  - by rewrite append_empty_r.
  - destruct (bytes_decode lib b _) as [s|e]; [|done].
    by rewrite append_empty_r.
Qed.

(** C7, defect: only the first chunk of a header value is decoded.  For
    the subject [Re: =?utf-8?b?5L2g5aW9?=], [decode_header] returns the
    unencoded text and the encoded word as two chunks; decoded in full the
    value is [Re: ] followed by the two Chinese characters, and the three
    lines of the program yield [Re: ] alone. *)
Theorem C7_only_first_chunk_decoded :
  let h := "Re: =?utf-8?b?5L2g5aW9?=" in
  decode_header Fixtures.lib h
  = Ret [(CBytes (String.list_byte_of_string "Re: "), None);
         (CBytes [xe4; xbd; xa0; xe5; xa5; xbd], Some "utf-8")] ∧
  decode_whole Fixtures.lib h = Ret "Re: 你好" ∧
  decode_first Fixtures.lib (Some h) = ([], Ret "Re: ").
Proof. vm_compute. repeat split; reflexivity. Qed.

(** ** The streaming listing *)

Section Streaming.
Context (lib : PyLib) (imap : ImapServer).

(** One iteration yields nothing, or it yields one summary and
    returns. *)
Lemma generate_item_yields (eid : string) :
  let m := mail_api.generate_item lib imap eid in
  mail_api.yields m.1 = [] ∨
  ∃ s, mail_api.yields m.1 = [YSummary s] ∧ m.2 = Ret tt.
Proof.
  unfold mail_api.generate_item, call.
  destruct (imap_fetch imap eid mail_api.HEADER_FIELDS) as [msg_data|e];
    [|by left].
  rewrite bind_ret.
  destruct (first_raw msg_data) as [raw|e]; [|by left].
  rewrite bind_lift_ret. destruct raw as [|b raw]; [by left|].
  set (msg := message_from_bytes lib (b :: raw)).
  pose proof (decode_first_pure lib (h_subject (headers msg))) as Hp.
  destruct (decode_first lib (h_subject (headers msg))) as [t [s|e]];
    simpl in Hp; subst t; [|by left].
  right. eexists. split; reflexivity.
Qed.

Lemma generate_item_summaries (eid : string) :
  summaries (mail_api.yields (mail_api.generate_item lib imap eid).1)
  = option_list (item_summary lib imap eid).
Proof.
  unfold item_summary.
  destruct (generate_item_yields eid) as [-> | (s & -> & _)]; reflexivity.
Qed.

(** One turn of the loop: the separator, the events of the iteration
    whether it returned or raised, then the rest of the loop. *)
Lemma generate_loop_cons (first : bool) (eid : string)
    (rest : list string) :
  mail_api.generate_loop lib imap first (eid :: rest)
  = ((if first then [] else [Yield (YText ",")])
       ++ (mail_api.generate_item lib imap eid).1
       ++ (mail_api.generate_loop lib imap false rest).1,
     (mail_api.generate_loop lib imap false rest).2).
Proof.
  cbn [mail_api.generate_loop].
  destruct (mail_api.generate_item lib imap eid) as [t [[]|e]];
    destruct first; cbn -[mail_api.generate_loop];
    by rewrite ?app_nil_r.
Qed.

(** A failing iteration yields nothing, and the loop goes on with the
    next identifier. *)
Lemma generate_loop_swallows (first : bool) (eid : string)
    (rest : list string) t e :
  mail_api.generate_item lib imap eid = (t, Raise e) →
  mail_api.yields t = [] ∧
  mail_api.generate_loop lib imap first (eid :: rest)
  = ((if first then [] else [Yield (YText ",")]) ++ t
       ++ (mail_api.generate_loop lib imap false rest).1,
     (mail_api.generate_loop lib imap false rest).2).
Proof.
  intros H. split.
  - destruct (generate_item_yields eid) as [Hy | (s & _ & Hr)];
      rewrite H in *; [done|discriminate].
  - by rewrite generate_loop_cons, H.
Qed.

(** The loop never raises, and the summaries it yields are those of its
    iterations taken one by one, in order. *)
Lemma generate_loop_summaries (first : bool) (email_ids : list string) :
  let m := mail_api.generate_loop lib imap first email_ids in
  m.2 = Ret tt ∧
  summaries (mail_api.yields m.1) = omap (item_summary lib imap) email_ids.
Proof.
  revert first. induction email_ids as [|eid rest IH]; intros first; [done|].
  destruct (IH false) as [IHr IHs].
  cbv zeta. rewrite generate_loop_cons. cbn [fst snd].
  split; [exact IHr|].
  rewrite !yields_app, !summaries_app, IHs, generate_item_summaries.
  cbn [omap list_omap].
  destruct first, (item_summary lib imap eid); reflexivity.
Qed.
End Streaming.

Section StreamingStart.
Context (lib : PyLib) (imap : ImapServer).

(** A failure of the connection or of the login: one error element. *)
Lemma generate_start_failure (e : exn) :
  imap_connect imap = Some e
  ∨ (imap_connect imap = None ∧ imap_login imap = Some e) →
  mail_api.yields (mail_api.generate lib imap).1 = [YError (exn_str e)] ∧
  (mail_api.generate lib imap).2 = Ret tt.
Proof.
  unfold mail_api.generate. intros [Hc | [Hc Hl]]; rewrite Hc.
  - done.
  - by rewrite Hl.
Qed.

(** After a successful start the summaries produced are those of the
    iterations over the last ten identifiers, each taken on its own. *)
Lemma generate_summaries (ids : list string) :
  imap_connect imap = None → imap_login imap = None →
  imap_select imap "inbox" = None → imap_search imap = Ret ids →
  summaries (mail_api.yields (mail_api.generate lib imap).1)
  = omap (item_summary lib imap) (py_slice_from (-10) ids).
Proof.
  intros Hc Hl Hs Hq. unfold mail_api.generate.
  rewrite Hc, Hl, Hs, Hq.
  destruct (generate_loop_summaries lib imap true (py_slice_from (-10) ids))
    as [Hr Hsum].
  cbv zeta in Hr, Hsum.
  cbn -[mail_api.generate_loop py_slice_from summaries mail_api.yields
        item_summary].
  destruct (mail_api.generate_loop lib imap true (py_slice_from (-10) ids))
    as [t r]. simpl in Hr, Hsum. subst r.
  destruct (imap_logout imap);
    cbn -[py_slice_from summaries mail_api.yields item_summary];
    rewrite <- ?app_assoc;
    change (?a :: ?b :: ?c :: ?d :: ?e :: t ++ ?l)
      with ([a; b; c; d; e] ++ t ++ l);
    rewrite !yields_app, !summaries_app, Hsum;
    cbn -[py_slice_from item_summary]; by rewrite app_nil_r.
Qed.
End StreamingStart.

(** C9: when the connection or the login fails at the start, the
    generator produces exactly one error element and ends; once started,
    an iteration that fails produces no element and the loop goes on with
    the following identifiers, so that the summaries produced are those
    of the iterations that do not fail, in order. *)
Theorem C9_stream_failures (lib : PyLib) (imap : ImapServer) :
  (∀ e, imap_connect imap = Some e
        ∨ (imap_connect imap = None ∧ imap_login imap = Some e) →
        mail_api.yields (mail_api.generate lib imap).1
        = [YError (exn_str e)] ∧
        (mail_api.generate lib imap).2 = Ret tt) ∧
  (∀ first eid rest t e,
      mail_api.generate_item lib imap eid = (t, Raise e) →
      mail_api.yields t = [] ∧
      mail_api.generate_loop lib imap first (eid :: rest)
      = ((if first then [] else [Yield (YText ",")]) ++ t
           ++ (mail_api.generate_loop lib imap false rest).1,
         (mail_api.generate_loop lib imap false rest).2)) ∧
  (∀ ids,
      imap_connect imap = None → imap_login imap = None →
      imap_select imap "inbox" = None → imap_search imap = Ret ids →
      summaries (mail_api.yields (mail_api.generate lib imap).1)
      = omap (item_summary lib imap) (py_slice_from (-10) ids)).
Proof.
  split; [|split].
  - apply generate_start_failure.
  - intros first eid rest t e H.
    by apply (generate_loop_swallows lib imap first eid rest t e).
  - apply generate_summaries.
Qed.

Lemma C9_witness :
  (mail_api.yields (mail_api.generate Fixtures.lib Fixtures.imap_down).1
   = [YError "Connection refused"]) ∧
  (mail_api.yields (mail_api.generate Fixtures.lib Fixtures.imap_bad_login).1
   = [YError "LOGIN failed"]) ∧
  (mail_api.yields
     (mail_api.generate_item Fixtures.lib Fixtures.imap_five "3").1 = []) ∧
  (s_email_id <$>
     summaries (mail_api.yields
                  (mail_api.generate Fixtures.lib Fixtures.imap_five).1)
   = [Some "1"; Some "2"; Some "4"; Some "5"]).
Proof.
  destruct (C9_stream_failures Fixtures.lib Fixtures.imap_down)
    as (H1 & _ & _).
  destruct (C9_stream_failures Fixtures.lib Fixtures.imap_bad_login)
    as (H2 & _ & _).
  destruct (C9_stream_failures Fixtures.lib Fixtures.imap_five)
    as (_ & H3 & H4).
  split; [|split; [|split]].
  - apply (H1 (Exn "ConnectionRefusedError" "Connection refused")).
    left. reflexivity.
  - apply (H2 (Exn "error" "LOGIN failed")).
    right. split; reflexivity.
  - apply (H3 true "3" []
             [ImapFetch "3" mail_api.HEADER_FIELDS]
             (Exn "LookupError" "unknown encoding: x-nope")).
    vm_compute. reflexivity.
  - rewrite (H4 ["1"; "2"; "3"; "4"; "5"]) by reflexivity.
    vm_compute. reflexivity.
Defined.

(** ** The attachment manifest *)

Section Rounding.
Local Open Scope Q_scope.



End Rounding.

Section Manifest.
Context (lib : PyLib) (imap : ImapServer).



End Manifest.

(** * Further properties of the views and of the client *)

Lemma for_append_quiet {A B} (body : A → M B) (l : list A) :
  (∀ x, quiet (body x).1) → quiet (for_append body l).1.
Proof.
  intros Hq. induction l as [|x l IH]; [constructor|].
  cbn [for_append]. apply quiet_bind; [apply Hq|intros y].
  apply quiet_bind; [apply IH|intros ys]. constructor.
Qed.

Lemma list_emails_item_quiet (lib : PyLib) (imap : ImapServer) (num : string) :
  quiet (MailClient.list_emails_item lib imap num).1.
Proof.
  unfold MailClient.list_emails_item.
  apply quiet_bind; [by apply quiet_call|intros msg_data].
  apply quiet_bind; [by apply quiet_pure|intros raw].
  apply quiet_bind; [apply quiet_pure, decode_first_pure|intros s].
  constructor.
Qed.

Lemma list_headers_item_quiet (lib : PyLib) (imap : ImapServer) (num : string) :
  quiet (MailClient.list_headers_item lib imap num).1.
Proof.
  unfold MailClient.list_headers_item.
  apply quiet_bind; [by apply quiet_call|intros msg_data].
  apply quiet_bind; [by apply quiet_pure|intros raw].
  apply quiet_bind; [apply quiet_pure, decode_first_pure|intros s].
  constructor.
Qed.

(** A [connect_imap] that returns has opened one connection. *)
Lemma connect_imap_ret (self : MailClient.t) (imap : ImapServer) t :
  MailClient.connect_imap self imap = (t, Ret tt) →
  opened t = 1%nat ∧ closed t = 0%nat.
Proof.
  unfold MailClient.connect_imap.
  destruct (MailClient.use_ssl self), (imap_connect imap),
    (imap_starttls imap), (imap_login imap);
    cbn; intros [= <-]; by cbv.
Qed.

(** What is common to the two batch listings. *)
Lemma batch_listing_closes {A} (self : MailClient.t) (imap : ImapServer)
    (folder : string) (loop : list string → M (list A)) t emails :
  (∀ ids, quiet (loop ids).1) →
  (MailClient.connect_imap self imap;;
   command (ImapSelect folder) (imap_select imap folder);;
   email_ids ← call ImapSearch (imap_search imap);
   emails ← loop email_ids;
   command ImapLogout (imap_logout imap);;
   mret emails) = (t, Ret emails) →
  opened t = 1%nat ∧ closed t = 1%nat ∧ last t = Some ImapLogout.
Proof.
  intros Hq H.
  apply bind_inv_ret in H as (t1 & [] & ? & Hc & H & ->).
  apply bind_inv_ret in H as (t2 & [] & ? & Hs & H & ->).
  apply bind_inv_ret in H as (t3 & ids & ? & Hq' & H & ->).
  apply bind_inv_ret in H as (t4 & l & ? & Hl & H & ->).
  apply bind_inv_ret in H as (t5 & [] & t6 & Ho & H & ->).
  injection H as <- _. injection Hs as <- _. injection Hq' as <- _.
  injection Ho as <- _.
  apply connect_imap_ret in Hc as [Hc1 Hc2].
  pose proof (Hq ids) as Hi. rewrite Hl in Hi.
  apply quiet_counts in Hi as [Hi1 Hi2]. simpl in Hi1, Hi2.
  rewrite !opened_app, !closed_app, Hc1, Hc2, Hi1, Hi2.
  split; [reflexivity|]. split; [reflexivity|].
  rewrite app_nil_r, !app_assoc. apply last_snoc.
Qed.

(** X3: a batch listing that returns has opened exactly one connection
    and logged out exactly once, and the logout is the last thing it
    did. *)
Theorem X3_batch_listing_closes_on_return (lib : PyLib)
    (self : MailClient.t) (imap : ImapServer) (folder : string)
    (limit : Z) (t : list event) (emails : list Summary) :
  MailClient.list_emails lib self imap folder limit = (t, Ret emails)
  ∨ MailClient.list_headers lib self imap folder limit = (t, Ret emails) →
  opened t = 1%nat ∧ closed t = 1%nat ∧ last t = Some ImapLogout.
Proof.
  intros [H|H].
  - eapply (batch_listing_closes self imap folder
              (λ ids, for_append (MailClient.list_emails_item lib imap)
                        (py_slice_from (- limit) ids))); [|exact H].
    intros ids. apply for_append_quiet, list_emails_item_quiet.
  - eapply (batch_listing_closes self imap folder
              (λ ids, for_append (MailClient.list_headers_item lib imap)
                        (py_slice_from (- limit) ids))); [|exact H].
    intros ids. apply for_append_quiet, list_headers_item_quiet.
Qed.

Lemma X3_witness :
  let t := [ImapOpen true; ImapLogin; ImapSelect "INBOX"; ImapSearch;
            ImapFetch "2" "(RFC822)"; ImapFetch "4" "(RFC822)";
            ImapLogout] in
  opened t = 1%nat ∧ closed t = 1%nat ∧ last t = Some ImapLogout.
Proof.
  apply (X3_batch_listing_closes_on_return Fixtures.lib Fixtures.client
           Fixtures.imap_three "INBOX" 2 _
           [ {| s_email_id := None; s_subject := "two";
                s_from := Some "b@x.org"; s_date := Some "d2" |};
             {| s_email_id := None; s_subject := "four";
                s_from := Some "d@x.org"; s_date := Some "d4" |} ]).
  left. vm_compute. reflexivity.
Defined.

(** ** What the batch listing of headers returns *)

Lemma list_headers_item_id (lib : PyLib) (imap : ImapServer) (num : string)
    t s :
  MailClient.list_headers_item lib imap num = (t, Ret s) →
  s_email_id s = Some num.
Proof.
  unfold MailClient.list_headers_item. intros H.
  apply bind_inv_ret in H as (? & ? & ? & _ & H & _).
  apply bind_inv_ret in H as (? & ? & ? & _ & H & _).
  apply bind_inv_ret in H as (? & ? & ? & _ & H & _).
  by injection H as _ <-.
Qed.

Lemma list_headers_window (lib : PyLib) (self : MailClient.t)
    (imap : ImapServer) (folder : string) (limit : Z) t emails :
  MailClient.list_headers lib self imap folder limit = (t, Ret emails) →
  ∃ ids, imap_search imap = Ret ids ∧
    Forall2 (λ num s, ∃ t', MailClient.list_headers_item lib imap num
                             = (t', Ret s))
            (py_slice_from (- limit) ids) emails.
Proof.
  unfold MailClient.list_headers. intros H.
  apply bind_inv_ret in H as (? & ? & ? & _ & H & _).
  apply bind_inv_ret in H as (? & ? & ? & _ & H & _).
  apply bind_inv_ret in H as (? & ids & ? & Hs & H & _).
  apply bind_inv_ret in H as (? & l & ? & Hl & H & _).
  apply bind_inv_ret in H as (? & ? & ? & _ & H & _).
  injection H as _ <-. injection Hs as _ Hs.
  exists ids. split; [done|]. by eapply for_append_ret.
Qed.

(** X4: when [list_headers] returns, the identifiers carried by its
    entries are exactly the slice [email_ids[-limit:]] of the identifiers
    the server gave, in the server's order: one entry for each, none
    skipped.  For a positive limit these are at most [limit] entries;
    for a limit of zero they are all the identifiers of the folder. *)
Theorem X4_list_headers_identifiers (lib : PyLib) (self : MailClient.t)
    (imap : ImapServer) (folder : string) (limit : Z) (t : list event)
    (emails : list Summary) :
  MailClient.list_headers lib self imap folder limit = (t, Ret emails) →
  ∃ ids, imap_search imap = Ret ids ∧
    summary_ids emails = Some <$> py_slice_from (- limit) ids ∧
    (0 < limit → Z.of_nat (length emails) ≤ limit) ∧
    (limit = 0 → summary_ids emails = Some <$> ids).
Proof.
  intros H. apply list_headers_window in H as (ids & Hs & Hall).
  exists ids. split; [done|].
  assert (Hids : summary_ids emails = Some <$> py_slice_from (- limit) ids).
  { unfold summary_ids. induction Hall as [|num s l1 l2 [t' Hi] _ IH];
      [done|].
    cbn [fmap list_fmap]. rewrite <- IH.
    by rewrite (list_headers_item_id _ _ _ _ _ Hi). }
  split; [done|]. split.
  - intros Hpos. rewrite <- (Forall2_length _ _ _ Hall).
    by apply py_slice_last_length.
  - intros ->. by rewrite Hids, py_slice_zero.
Qed.

Lemma X4_witness :
  ∃ ids, imap_search Fixtures.imap_three = Ret ids ∧
    summary_ids
      [ {| s_email_id := Some "2"; s_subject := "two";
           s_from := Some "b@x.org"; s_date := Some "d2" |};
        {| s_email_id := Some "4"; s_subject := "four";
           s_from := Some "d@x.org"; s_date := Some "d4" |} ]
    = Some <$> py_slice_from (- 2) ids ∧
    (0 < 2 → Z.of_nat 2 ≤ 2) ∧
    (2 = 0 →
     summary_ids
       [ {| s_email_id := Some "2"; s_subject := "two";
            s_from := Some "b@x.org"; s_date := Some "d2" |};
         {| s_email_id := Some "4"; s_subject := "four";
            s_from := Some "d@x.org"; s_date := Some "d4" |} ]
     = Some <$> ids).
Proof.
  apply (X4_list_headers_identifiers Fixtures.lib Fixtures.client
           Fixtures.imap_three "INBOX" 2
           [ImapOpen true; ImapLogin; ImapSelect "INBOX"; ImapSearch;
            ImapFetch "2" MailClient.HEADER_FIELDS;
            ImapFetch "4" MailClient.HEADER_FIELDS; ImapLogout]).
  vm_compute. reflexivity.
Defined.

(** ** What the streaming listing produces *)

Lemma commas_app (ys1 ys2 : list yielded) :
  commas (ys1 ++ ys2) = (commas ys1 + commas ys2)%nat.
Proof. unfold commas. by rewrite List.filter_app, length_app. Qed.

Lemma length_omap_le {A B} (f : A → option B) (l : list A) :
  (length (omap f l) ≤ length l)%nat.
Proof.
  induction l as [|x l IH]; [done|]. cbn [omap list_omap].
  destruct (f x); cbn [length]; lia.
Qed.

Section StreamingMore.
Context (lib : PyLib) (imap : ImapServer).

(** One iteration yields nothing, or one summary that carries the
    identifier of the iteration. *)
Lemma generate_item_yields_id (eid : string) :
  let m := mail_api.generate_item lib imap eid in
  mail_api.yields m.1 = [] ∨
  ∃ s, mail_api.yields m.1 = [YSummary s] ∧ s_email_id s = Some eid.
Proof.
  unfold mail_api.generate_item, call.
  destruct (imap_fetch imap eid mail_api.HEADER_FIELDS) as [msg_data|e];
    [|by left].
  rewrite bind_ret.
  destruct (first_raw msg_data) as [raw|e]; [|by left].
  rewrite bind_lift_ret. destruct raw as [|b raw]; [by left|].
  set (msg := message_from_bytes lib (b :: raw)).
  pose proof (decode_first_pure lib (h_subject (headers msg))) as Hp.
  destruct (decode_first lib (h_subject (headers msg))) as [t [s|e]];
    simpl in Hp; subst t; [|by left].
  right. eexists. split; reflexivity.
Qed.

Lemma item_summary_id (eid : string) (s : Summary) :
  item_summary lib imap eid = Some s → s_email_id s = Some eid.
Proof.
  unfold item_summary.
  destruct (generate_item_yields_id eid) as [-> | (s' & -> & Hid)];
    [done|].
  by intros [= <-].
Qed.

Lemma item_no_comma (eid : string) :
  commas (mail_api.yields (mail_api.generate_item lib imap eid).1) = 0%nat.
Proof.
  by destruct (generate_item_yields_id eid) as [-> | (s' & -> & _)].
Qed.

Lemma generate_item_quiet (eid : string) :
  quiet (mail_api.generate_item lib imap eid).1.
Proof.
  unfold mail_api.generate_item.
  apply quiet_bind; [by apply quiet_call|intros msg_data].
  apply quiet_bind; [by apply quiet_pure|intros raw].
  destruct raw as [|b raw]; [constructor|].
  apply quiet_bind; [apply quiet_pure, decode_first_pure|intros s].
  by repeat constructor.
Qed.

Lemma generate_loop_quiet (first : bool) (email_ids : list string) :
  quiet (mail_api.generate_loop lib imap first email_ids).1.
Proof.
  revert first. induction email_ids as [|eid rest IH]; intros first;
    [constructor|].
  rewrite generate_loop_cons. cbn [fst].
  apply Forall_app. split; [destruct first; by repeat constructor|].
  apply Forall_app. split; [apply generate_item_quiet|apply IH].
Qed.

Lemma generate_loop_commas (first : bool) (email_ids : list string) :
  commas (mail_api.yields (mail_api.generate_loop lib imap first email_ids).1)
  = if first then pred (length email_ids) else length email_ids.
Proof.
  revert first. induction email_ids as [|eid rest IH]; intros first.
  - by destruct first.
  - rewrite generate_loop_cons. cbn [fst].
    rewrite !yields_app, !commas_app, item_no_comma, (IH false).
    by destruct first.
Qed.

(** The trace of the generator after a successful start. *)
Lemma generate_started (ids : list string) :
  imap_connect imap = None → imap_login imap = None →
  imap_select imap "inbox" = None → imap_search imap = Ret ids →
  (mail_api.generate lib imap).1
  = [ImapOpen true; ImapLogin; ImapSelect "inbox"; Yield (YText "[");
     ImapSearch]
    ++ (mail_api.generate_loop lib imap true (py_slice_from (-10) ids)).1
    ++ [Yield (YText "]"); ImapLogout]
    ++ match imap_logout imap with
       | Some e => [Yield (YError (exn_str e))]
       | None => []
       end.
Proof.
  intros Hc Hl Hs Hq. unfold mail_api.generate.
  rewrite Hc, Hl, Hs, Hq.
  destruct (generate_loop_summaries lib imap true (py_slice_from (-10) ids))
    as [Hr _].
  cbv zeta in Hr.
  cbn -[mail_api.generate_loop py_slice_from].
  destruct (mail_api.generate_loop lib imap true (py_slice_from (-10) ids))
    as [t r]. simpl in Hr. subst r.
  destruct (imap_logout imap); cbn -[py_slice_from];
    by rewrite <- ?app_assoc, ?app_nil_r.
Qed.
End StreamingMore.

(** X5: the streaming listing produces at most ten summaries, whatever
    limit the request asks for and whatever the server holds. *)
Theorem X5_stream_at_most_ten (lib : PyLib) (imap : ImapServer)
    (limit_arg : option Z) :
  (length (summaries (mail_api.yields
                        (mail_api.list_mails lib imap limit_arg).1))
   ≤ 10)%nat.
Proof.
  unfold mail_api.list_mails. cbv zeta.
  destruct (imap_connect imap) as [e|] eqn:Hc;
    [unfold mail_api.generate; rewrite Hc; cbn; lia|].
  destruct (imap_login imap) as [e|] eqn:Hl;
    [unfold mail_api.generate; rewrite Hc, Hl; cbn; lia|].
  destruct (imap_select imap "inbox") as [e|] eqn:Hs;
    [unfold mail_api.generate; rewrite Hc, Hl, Hs; cbn; lia|].
  destruct (imap_search imap) as [ids|e] eqn:Hq;
    [|unfold mail_api.generate; rewrite Hc, Hl, Hs, Hq; cbn; lia].
  rewrite (generate_summaries lib imap ids) by done.
  etrans; [apply length_omap_le|].
  pose proof (py_slice_last_length 10 ids ltac:(lia)) as Hlen.
  change (Z.opp 10) with (-10) in Hlen. lia.
Qed.

Lemma omap_ids_sublist (lib : PyLib) (imap : ImapServer) (l : list string) :
  sublist (summary_ids (omap (item_summary lib imap) l)) (Some <$> l).
Proof.
  induction l as [|eid l IH]; [constructor|].
  cbn [omap list_omap fmap list_fmap].
  destruct (item_summary lib imap eid) as [s|] eqn:E.
  - unfold summary_ids. cbn [fmap list_fmap].
    rewrite (item_summary_id lib imap eid s E). by constructor.
  - by constructor.
Qed.

(** X6: after a successful start, the summaries of the stream carry
    identifiers taken from the last ten identifiers of the server, each
    at most once and in the server's order. *)
Theorem X6_stream_identifiers_in_order (lib : PyLib) (imap : ImapServer)
    (ids : list string) :
  imap_connect imap = None → imap_login imap = None →
  imap_select imap "inbox" = None → imap_search imap = Ret ids →
  sublist
    (summary_ids (summaries (mail_api.yields (mail_api.generate lib imap).1)))
    (Some <$> py_slice_from (-10) ids).
Proof.
  intros Hc Hl Hs Hq. rewrite (generate_summaries lib imap ids) by done.
  apply omap_ids_sublist.
Qed.

Lemma X6_witness :
  sublist
    (summary_ids (summaries (mail_api.yields
                               (mail_api.generate Fixtures.lib
                                  Fixtures.imap_five).1)))
    (Some <$> py_slice_from (-10) ["1"; "2"; "3"; "4"; "5"]).
Proof.
  apply (X6_stream_identifiers_in_order Fixtures.lib Fixtures.imap_five);
    reflexivity.
Defined.

Lemma length_omap_lt {A B} (f : A → option B) (l : list A) (x : A) :
  x ∈ l → f x = None → (length (omap f l) < length l)%nat.
Proof.
  intros Hin Hx. induction Hin as [x l|x y l Hin IH];
    cbn [omap list_omap].
  - rewrite Hx. apply Nat.lt_succ_r, length_omap_le.
  - specialize (IH Hx). destruct (f y); cbn [length].
    + by apply (proj1 (Nat.succ_lt_mono _ _)).
    + by apply Nat.lt_lt_succ_r.
Qed.

(** X7: after a successful start the stream holds one separator less
    than there are identifiers in the slice, whether their iterations
    produce a summary or not.  So as soon as the slice has two
    identifiers and one of them produces no summary, there are more
    separators than a list of the produced summaries takes: what is
    streamed is not a well-formed array. *)
Theorem X7_stream_separators (lib : PyLib) (imap : ImapServer)
    (ids : list string) :
  imap_connect imap = None → imap_login imap = None →
  imap_select imap "inbox" = None → imap_search imap = Ret ids →
  let window := py_slice_from (-10) ids in
  let ys := mail_api.yields (mail_api.generate lib imap).1 in
  commas ys = pred (length window) ∧
  ((2 ≤ length window)%nat →
   (∃ eid, eid ∈ window ∧ item_summary lib imap eid = None) →
   (pred (length (summaries ys)) < commas ys)%nat).
Proof.
  intros Hc Hl Hs Hq window ys.
  assert (Hcommas : commas ys = pred (length window)).
  { unfold ys. rewrite (generate_started lib imap ids) by done.
    rewrite !yields_app, !commas_app, generate_loop_commas.
    fold window. destruct (imap_logout imap); cbn; lia. }
  split; [done|]. intros Hlen (eid & Hin & Hnone).
  rewrite Hcommas. unfold ys.
  rewrite (generate_summaries lib imap ids) by done. fold window.
  pose proof (length_omap_lt (item_summary lib imap) window eid Hin Hnone).
  lia.
Qed.

Lemma X7_witness :
  let window := py_slice_from (-10) ["1"; "2"; "3"; "4"; "5"] in
  let ys := mail_api.yields
              (mail_api.generate Fixtures.lib Fixtures.imap_five).1 in
  commas ys = pred (length window) ∧
  ((2 ≤ length window)%nat →
   (∃ eid, eid ∈ window
           ∧ item_summary Fixtures.lib Fixtures.imap_five eid = None) →
   (pred (length (summaries ys)) < commas ys)%nat).
Proof.
  apply (X7_stream_separators Fixtures.lib Fixtures.imap_five);
    reflexivity.
Defined.

(** X8: when the search fails after the folder was selected, the opening
    bracket has already been produced: the stream is the bracket followed
    by the error element, with no closing bracket, and the connection is
    left without a logout. *)
Theorem X8_stream_search_failure (lib : PyLib) (imap : ImapServer)
    (e : exn) :
  imap_connect imap = None → imap_login imap = None →
  imap_select imap "inbox" = None → imap_search imap = Raise e →
  let t := (mail_api.generate lib imap).1 in
  mail_api.yields t = [YText "["; YError (exn_str e)] ∧
  opened t = 1%nat ∧ closed t = 0%nat.
Proof.
  intros Hc Hl Hs Hq. unfold mail_api.generate.
  rewrite Hc, Hl, Hs, Hq. by cbv.
Qed.

Lemma X8_witness :
  let imap :=
    {| imap_connect := None; imap_starttls := None; imap_login := None;
       imap_select := λ _, None;
       imap_search := Raise (Exn "error" "SEARCH failed");
       imap_fetch := λ _ _, Ret [FNone]; imap_logout := None |} in
  let t := (mail_api.generate Fixtures.lib imap).1 in
  mail_api.yields t = [YText "["; YError "SEARCH failed"] ∧
  opened t = 1%nat ∧ closed t = 0%nat.
Proof.
  intros imap.
  apply (X8_stream_search_failure Fixtures.lib imap
           (Exn "error" "SEARCH failed")); reflexivity.
Defined.

(** X9: once the search has answered, the generator reaches its logout
    whatever happens to the items: the trace has one connection opened
    and one logout, and the closing bracket is produced. *)
Theorem X9_stream_closes_after_search (lib : PyLib) (imap : ImapServer)
    (ids : list string) :
  imap_connect imap = None → imap_login imap = None →
  imap_select imap "inbox" = None → imap_search imap = Ret ids →
  let t := (mail_api.generate lib imap).1 in
  opened t = 1%nat ∧ closed t = 1%nat ∧ YText "]" ∈ mail_api.yields t.
Proof.
  intros Hc Hl Hs Hq. cbv zeta.
  rewrite (generate_started lib imap ids) by done.
  pose proof (generate_loop_quiet lib imap true (py_slice_from (-10) ids))
    as Hquiet.
  apply quiet_counts in Hquiet as [Ho Hcl].
  rewrite !opened_app, !closed_app, !yields_app, Ho, Hcl.
  split; [by destruct (imap_logout imap)|].
  split; [by destruct (imap_logout imap)|].
  apply elem_of_app. right. apply elem_of_app. right.
  apply elem_of_app. left. cbn. by left.
Qed.

Lemma X9_witness :
  let t := (mail_api.generate Fixtures.lib Fixtures.imap_five).1 in
  opened t = 1%nat ∧ closed t = 1%nat ∧ YText "]" ∈ mail_api.yields t.
Proof.
  apply (X9_stream_closes_after_search Fixtures.lib Fixtures.imap_five
           ["1"; "2"; "3"; "4"; "5"]); reflexivity.
Defined.


(** ** The manifest, part by part *)

Section ManifestMore.
Context (lib : PyLib) (imap : ImapServer).

(** What one iteration of the loop of [list_attachments] returns. *)
Lemma list_attachments_part_ret (part : Message) t o :
  mail_api.list_attachments_part lib part = (t, Ret o) →
  (is_candidate part = false ∧ o = None) ∨
  (is_candidate part = true ∧
   ∃ name, decode_first lib (h_filename (headers part)) = ([], Ret name) ∧
     o = Some {| mail_api.filename := secure_filename lib name;
                 mail_api.size_kb :=
                   py_round2 (Qmake (mail_api.payload_size part) 1024);
                 mail_api.mime_type := h_content_type (headers part) |}).
Proof.
  unfold mail_api.list_attachments_part, is_candidate.
  destruct (String.eqb (h_maintype (headers part)) "multipart");
    [intros [= _ <-]; by left|].
  destruct (h_disposition (headers part)) as [d|];
    [|intros [= _ <-]; by left].
  destruct (str_truthy (h_filename (headers part)));
    [|intros [= _ <-]; by left].
  pose proof (decode_first_pure lib (h_filename (headers part))) as Hp.
  destruct (decode_first lib (h_filename (headers part))) as [tn [name|e]];
    simpl in Hp; subst tn; [|discriminate].
  rewrite bind_ret. cbn [fst snd]. intros [= _ <-].
  right. split; [by rewrite bool_decide_true|]. by exists name.
Qed.

Lemma manifest_of_parts (parts : list Message) t l :
  for_append_opt (mail_api.list_attachments_part lib) parts = (t, Ret l) →
  Forall2 (λ part a,
             ∃ name,
               decode_first lib (h_filename (headers part)) = ([], Ret name) ∧
               mail_api.filename a = secure_filename lib name ∧
               mail_api.mime_type a = h_content_type (headers part))
          (List.filter is_candidate parts) l.
Proof.
  revert t l. induction parts as [|part rest IH]; intros t l;
    cbn [for_append_opt List.filter].
  - intros [= _ <-]. constructor.
  - intros H. apply bind_inv_ret in H as (t1 & o & ? & Ho & H & _).
    apply bind_inv_ret in H as (t2 & l' & ? & Hl & H & _).
    injection H as _ <-. specialize (IH _ _ Hl).
    apply list_attachments_part_ret in Ho
      as [[-> ->]|[-> (name & Hn & ->)]]; [done|].
    constructor; [|done]. by exists name.
Qed.
End ManifestMore.

(** X12: when [list_attachments] returns a manifest, it has one entry
    for each part of the fetched message that is not a multipart
    container, has a [Content-Disposition] header and a non-empty file
    name, in the order of [walk], and no other entry; the entry is named
    by the sanitized decoded file name of the part and carries the
    content type of the part. *)
Theorem X12_manifest_lists_the_attachments (lib : PyLib)
    (imap : ImapServer) (email_id : option string) (t : list event)
    (l : list mail_api.Attachment) :
  mail_api.list_attachments lib imap email_id
  = (t, Ret (mail_api.RAttachments l)) →
  ∃ raw rest,
    imap_fetch imap (default "" email_id) "(RFC822)"
    = Ret (FPair raw :: rest) ∧
    Forall2 (λ part a,
               ∃ name,
                 decode_first lib (h_filename (headers part))
                 = ([], Ret name) ∧
                 mail_api.filename a = secure_filename lib name ∧
                 mail_api.mime_type a = h_content_type (headers part))
            (List.filter is_candidate (walk (message_from_bytes lib raw))) l.
Proof.
  unfold mail_api.list_attachments, mail_api.with_mail.
  destruct (str_truthy email_id); [|discriminate]. cbn [negb].
  destruct (imap_connect imap); [discriminate|].
  intros Hb. apply finally_swallow_inv in Hb as (tb & Hb & _).
  apply try_except_inv in Hb as [Hb | (? & ? & ? & _ & Hh & _)];
    [|discriminate Hh].
  apply bind_inv_ret in Hb as (? & ? & ? & _ & Hb & _).
  apply bind_inv_ret in Hb as (? & ? & ? & _ & Hb & _).
  apply bind_inv_ret in Hb as (? & ? & ? & _ & Hb & _).
  apply bind_inv_ret in Hb as (? & msg_data & ? & Hf & Hb & _).
  apply bind_inv_ret in Hb as (? & raw & ? & Hr & Hb & _).
  apply bind_inv_ret in Hb as (? & l' & ? & Hl & Hb & _).
  injection Hb as _ <-. injection Hf as _ Hf. injection Hr as _ Hr.
  destruct msg_data as [|[|raw'] rest]; try discriminate.
  injection Hr as ->.
  exists raw, rest. split; [done|]. by eapply manifest_of_parts.
Qed.

Lemma X12_witness :
  ∃ raw rest,
    imap_fetch Fixtures.imap_report "7" "(RFC822)" = Ret (FPair raw :: rest) ∧
    Forall2 (λ part a,
               ∃ name,
                 decode_first Fixtures.lib (h_filename (headers part))
                 = ([], Ret name) ∧
                 mail_api.filename a = secure_filename Fixtures.lib name ∧
                 mail_api.mime_type a = h_content_type (headers part))
            (List.filter is_candidate
               (walk (message_from_bytes Fixtures.lib raw)))
            [ {| mail_api.filename := "a.txt";
                 mail_api.size_kb := Qmake 0 100;
                 mail_api.mime_type := "application/octet-stream" |} ].
Proof.
  apply (X12_manifest_lists_the_attachments Fixtures.lib
           Fixtures.imap_report (Some "7")
           [ImapOpen true; ImapLogin; ImapSelect "inbox";
            ImapFetch "7" "(RFC822)"; ImapLogout]).
  vm_compute. reflexivity.
Defined.

Lemma for_append_opt_raises {A B} (body : A → M (option B)) (l : list A)
    (x : A) (e : exn) :
  x ∈ l → (body x).2 = Raise e → ∃ e', (for_append_opt body l).2 = Raise e'.
Proof.
  intros Hin Hx. induction Hin as [x l|x y l Hin IH]; cbn [for_append_opt].
  - exists e. by apply bind_raises_l.
  - destruct (body y) as [t [b|e1]]; [|by exists e1].
    rewrite bind_ret. cbn [snd]. destruct (IH Hx) as [e' He'].
    exists e'. by apply bind_raises_l.
Qed.

(** X13: one attachment whose file name cannot be decoded makes the
    whole manifest fail: [list_attachments] answers with an error 500
    and lists none of the other attachments of the message; it has
    logged out. *)
Theorem X13_manifest_fails_on_one_bad_name (lib : PyLib)
    (imap : ImapServer) (email_id : string) (raw : list byte)
    (rest : list fetch_item) (part : Message) (e : exn) :
  email_id ≠ "" →
  imap_connect imap = None → imap_login imap = None →
  imap_select imap "inbox" = None →
  imap_fetch imap email_id "(RFC822)" = Ret (FPair raw :: rest) →
  part ∈ walk (message_from_bytes lib raw) →
  is_candidate part = true →
  (decode_first lib (h_filename (headers part))).2 = Raise e →
  ∃ e',
    mail_api.list_attachments lib imap (Some email_id)
    = ([ImapOpen true; ImapLogin; ImapSelect "inbox";
        ImapFetch email_id "(RFC822)"; ImapLogout],
       Ret (mail_api.RError 500 (exn_str e'))).
Proof.
  intros Hid Hc Hl Hs Hf Hin Hcand He.
  destruct (for_append_opt_raises (mail_api.list_attachments_part lib)
              (walk (message_from_bytes lib raw)) part e Hin) as [e' He'].
  { unfold mail_api.list_attachments_part.
    unfold is_candidate in Hcand.
    apply andb_true_iff in Hcand as [Hcand Hname].
    apply andb_true_iff in Hcand as [Hmulti Hdisp].
    apply negb_true_iff in Hmulti. rewrite Hmulti.
    apply bool_decide_eq_true in Hdisp.
    destruct (h_disposition (headers part)); [|done].
    rewrite Hname. by apply bind_raises_l. }
  exists e'.
  unfold mail_api.list_attachments, mail_api.with_mail.
  cbn [str_truthy]. apply String.eqb_neq in Hid. rewrite Hid. cbn [negb].
  rewrite Hc, Hl, Hs. cbn [default from_option id]. rewrite Hf.
  pose proof (for_append_opt_pure (mail_api.list_attachments_part lib)
                (walk (message_from_bytes lib raw))
                (list_attachments_part_pure lib)) as Hpure.
  unfold finally_swallow, try_except, command, call, emit.
  rewrite !bind_ret. cbn [fst snd first_raw]. rewrite bind_lift_ret.
  destruct (for_append_opt (mail_api.list_attachments_part lib)
              (walk (message_from_bytes lib raw))) as [tl rl].
  cbn in Hpure, He'. subst tl rl.
  destruct (imap_logout imap); reflexivity.
Qed.

Lemma X13_witness :
  ∃ e',
    mail_api.list_attachments MoreFixtures.lib MoreFixtures.imap_bad_name
      (Some "9")
    = ([ImapOpen true; ImapLogin; ImapSelect "inbox";
        ImapFetch "9" "(RFC822)"; ImapLogout],
       Ret (mail_api.RError 500 (exn_str e'))).
Proof.
  apply (X13_manifest_fails_on_one_bad_name MoreFixtures.lib
           MoreFixtures.imap_bad_name "9" MoreFixtures.raw_bad_name []
           MoreFixtures.part_bad_name
           (Exn "LookupError" "unknown encoding: x-nope")).
  - discriminate.
  - reflexivity.
  - reflexivity.
  - reflexivity.
  - reflexivity.
  - vm_compute. apply list_elem_of_In. simpl. tauto.
  - vm_compute. reflexivity.
  - vm_compute. reflexivity.
Defined.

(** ** Headers with a single chunk *)

(** X17: when [decode_header] returns a single chunk for a header value
    (a value without encoded word, or one encoded word alone), the
    subject or file name that the program obtains is the value decoded in
    full, with the declared charset or UTF-8, and raises exactly when
    that decoding raises. *)
Theorem X17_single_chunk_decoded_in_full (lib : PyLib) (h : string)
    (c : chunk) :
  decode_header lib h = Ret [c] →
  decode_first lib (Some h) = ([], decode_whole lib h).
Proof. intros H. by rewrite (decode_first_single lib h c H). Qed.

Lemma X17_witness :
  decode_first Fixtures.lib (Some "=?x-nope?b?aGk=?=")
  = ([], decode_whole Fixtures.lib "=?x-nope?b?aGk=?=").
Proof.
  apply (X17_single_chunk_decoded_in_full Fixtures.lib "=?x-nope?b?aGk=?="
           (CBytes (String.list_byte_of_string "hi"), Some "x-nope")).
  reflexivity.
Defined.

(** ** The destructor *)

(** X19: [__del__] never raises.  It logs out of the IMAP connection
    first; when that logout raises, the exception is swallowed and the
    SMTP session, if there is one, is left without QUIT. *)
Theorem X19_del_swallows_and_stops (imap : option ImapServer)
    (smtp : option SmtpServer) :
  (MailClient.__del__ imap smtp).2 = Ret tt ∧
  (∀ c e, imap = Some c → imap_logout c = Some e →
          (MailClient.__del__ imap smtp).1 = [ImapLogout]) ∧
  (∀ c s, imap = Some c → imap_logout c = None → smtp = Some s →
          (MailClient.__del__ imap smtp).1 = [ImapLogout; SmtpQuit]).
Proof.
  unfold MailClient.__del__. split; [|split].
  - destruct imap as [c|], smtp as [s|];
      try destruct (imap_logout c); try destruct (smtp_quit s); reflexivity.
  - intros c e -> He. cbn. rewrite He. reflexivity.
  - intros c s -> Hl ->. cbn. rewrite Hl. by destruct (smtp_quit s).
Qed.

Lemma X19_witness :
  (MailClient.__del__ (Some MoreFixtures.imap_logout_fails)
     (Some Fixtures.ok_smtp)).1 = [ImapLogout] ∧
  (MailClient.__del__ (Some Fixtures.imap_three)
     (Some Fixtures.ok_smtp)).1 = [ImapLogout; SmtpQuit].
Proof.
  split.
  - apply (X19_del_swallows_and_stops (Some MoreFixtures.imap_logout_fails)
             (Some Fixtures.ok_smtp))
      with (c := MoreFixtures.imap_logout_fails)
           (e := Exn "abort" "socket error"); reflexivity.
  - apply (X19_del_swallows_and_stops (Some Fixtures.imap_three)
             (Some Fixtures.ok_smtp))
      with (c := Fixtures.imap_three) (s := Fixtures.ok_smtp); reflexivity.
Defined.

(** ** How many entries the batch listing returns *)

Lemma py_slice_from_length {A} (start : Z) (l : list A) :
  Z.of_nat (length (py_slice_from start l))
  = let n := Z.of_nat (length l) in
    if start <? 0 then Z.min n (- start) else Z.max 0 (n - start).
Proof.
  unfold py_slice_from. cbv zeta. rewrite length_drop.
  destruct (Z.ltb_spec start 0); lia.
Qed.

(** X21: [list_emails] is all or nothing, and its count follows the
    slice [email_ids[-limit:]]: when it returns, it returns one summary
    for each identifier of the slice.  With [n] identifiers in the
    folder that is [min n limit] summaries for a positive limit, all [n]
    for a limit of zero, and for a negative limit the [n + limit] last
    ones (the first [-limit] are dropped), none when [n + limit] is
    negative. *)
Theorem X21_list_emails_count (lib : PyLib) (self : MailClient.t)
    (imap : ImapServer) (folder : string) (limit : Z) (t : list event)
    (emails : list Summary) :
  MailClient.list_emails lib self imap folder limit = (t, Ret emails) →
  ∃ ids, imap_search imap = Ret ids ∧
    let n := Z.of_nat (length ids) in
    Z.of_nat (length emails)
    = if 0 <? limit then Z.min n limit else Z.max 0 (n + limit).
Proof.
  intros H. apply list_emails_window in H as (ids & Hs & Hall).
  exists ids. split; [done|]. cbv zeta.
  rewrite <- (Forall2_length _ _ _ Hall), py_slice_from_length. cbv zeta.
  destruct (Z.ltb_spec (- limit) 0), (Z.ltb_spec 0 limit); lia.
Qed.

Lemma X21_witness :
  ∃ ids, imap_search Fixtures.imap_three = Ret ids ∧
    let n := Z.of_nat (length ids) in
    Z.of_nat (length
                [ {| s_email_id := None; s_subject := "two";
                     s_from := Some "b@x.org"; s_date := Some "d2" |};
                  {| s_email_id := None; s_subject := "four";
                     s_from := Some "d@x.org"; s_date := Some "d4" |} ])
    = if 0 <? -1 then Z.min n (-1) else Z.max 0 (n + -1).
Proof.
  apply (X21_list_emails_count Fixtures.lib Fixtures.client
           Fixtures.imap_three "INBOX" (-1)
           [ImapOpen true; ImapLogin; ImapSelect "INBOX"; ImapSearch;
            ImapFetch "2" "(RFC822)"; ImapFetch "4" "(RFC822)";
            ImapLogout]).
  vm_compute. reflexivity.
Defined.

(** ** The attachment cache *)

Section Download.
Context (lib : PyLib) (imap : ImapServer) (stdout : option exn).

(** What the loop does: it performs no event; either it leaves the cache
    as it is, and returns an error or raises; or one part matched, whose
    sanitized name is the requested one and whose payload is not empty:
    the payload is stored under the key, and the file is returned unless
    the [print] that follows the store raises. *)
Lemma download_loop_inv (key filename : string) (parts : list Message)
    (cache cache' : gmap string (list byte)) t r :
  mail_api.download_loop lib stdout key filename parts cache
  = (cache', (t, r)) →
  t = [] ∧
  ((cache' = cache ∧
    ((∃ status msg, r = Ret (mail_api.RError status msg))
     ∨ ∃ e, r = Raise e ∧
         ∃ part, part ∈ parts ∧
           (decode_first lib (h_filename (headers part))).2 = Raise e)) ∨
   ∃ part name data,
     part ∈ parts ∧
     decode_first lib (h_filename (headers part)) = ([], Ret name) ∧
     secure_filename lib name = filename ∧
     get_payload_decode part = Some data ∧ data ≠ [] ∧
     cache' = <[key := data]> cache ∧
     r = match stdout with
         | None => Ret (mail_api.RFile data (Some (mime_type_of part))
                          filename)
         | Some e => Raise e
         end).
Proof.
  induction parts as [|part rest IH]; cbn [mail_api.download_loop].
  - intros [= <- <- <-]. split; [done|]. left. split; [done|]. left. eauto.
  - assert (Hrest :
      mail_api.download_loop lib stdout key filename rest cache
      = (cache', (t, r)) →
      t = [] ∧
      ((cache' = cache ∧
        ((∃ status msg, r = Ret (mail_api.RError status msg))
         ∨ ∃ e, r = Raise e ∧
             ∃ part', part' ∈ part :: rest ∧
               (decode_first lib (h_filename (headers part'))).2 = Raise e)) ∨
       ∃ part' name data,
         part' ∈ part :: rest ∧
         decode_first lib (h_filename (headers part')) = ([], Ret name) ∧
         secure_filename lib name = filename ∧
         get_payload_decode part' = Some data ∧ data ≠ [] ∧
         cache' = <[key := data]> cache ∧
         r = match stdout with
             | None => Ret (mail_api.RFile data (Some (mime_type_of part'))
                              filename)
             | Some e => Raise e
             end)).
    { intros H. destruct (IH H) as [-> [[-> [?|(e & -> & p & Hin & He)]]
                                      |(p & n & d & Hin & ?)]].
      - split; [done|]. left. split; [done|]. by left.
      - split; [done|]. left. split; [done|]. right.
        exists e. split; [done|]. exists p. split; [by right|done].
      - split; [done|]. right. exists p, n, d. split; [by right|done]. }
    destruct (String.eqb (h_maintype (headers part)) "multipart");
      [done|].
    destruct (h_disposition (headers part)); [|done].
    destruct (str_truthy (h_filename (headers part))); [|done].
    pose proof (decode_first_pure lib (h_filename (headers part))) as Hp.
    unfold mbind, MS_bind, run. cbn [fst snd].
    destruct (decode_first lib (h_filename (headers part)))
      as [tn [name|e]] eqn:Hname; simpl in Hp; subst tn.
    + destruct (String.eqb_spec (secure_filename lib name) filename)
        as [Hsame|_].
      * destruct (get_payload_decode part) as [[|b data]|] eqn:Hpay.
        -- cbn. intros [= <- <- <-]. split; [done|]. left.
           split; [done|]. left. eauto.
        -- unfold cache_store, print, lift.
           destruct stdout as [e|]; cbn; intros [= <- <- <-];
             (split; [done|]); right;
             exists part, name, (b :: data);
             (split; [by left|]); done.
        -- cbn. intros [= <- <- <-]. split; [done|]. left.
           split; [done|]. left. eauto.
      * destruct (mail_api.download_loop lib stdout key filename rest cache)
          as [c1 [t1 r1]] eqn:Hl. cbn. intros [= <- <- <-].
        by apply Hrest.
    + intros [= <- <- <-]. split; [done|]. left. split; [done|]. right.
      exists e. split; [done|]. exists part. split; [by left|].
      by rewrite Hname.
Qed.
End Download.

Section DownloadView.
Context (lib : PyLib) (imap : ImapServer) (stdout : option exn).

(** [download_attachment] ends in one of three ways.  It leaves the
    cache as it is, and returns an error or lets out the exception of a
    [print]; or it returns the cached bytes, with no event; or a part of
    the fetched message matched: its payload is stored, and the file is
    returned unless the [print] that follows the store raises. *)
Lemma download_attachment_inv (email_id filename : option string)
    (cache cache' : gmap string (list byte)) t r :
  mail_api.download_attachment lib imap stdout email_id filename cache
  = (cache', (t, r)) →
  (cache' = cache ∧
   ((∃ status msg, r = Ret (mail_api.RError status msg))
    ∨ ∃ e, stdout = Some e ∧ r = Raise e)) ∨
  (∃ e f data,
      email_id = Some e ∧ filename = Some f ∧
      str_truthy email_id = true ∧ str_truthy filename = true ∧
      cache !! mail_api.cache_key e f = Some data ∧
      t = [] ∧ cache' = cache ∧ r = Ret (mail_api.RFile data None f)) ∨
  (∃ e f raw rest part name data,
      email_id = Some e ∧ filename = Some f ∧
      str_truthy email_id = true ∧ str_truthy filename = true ∧
      cache !! mail_api.cache_key e f = None ∧
      imap_fetch imap e "(RFC822)" = Ret (FPair raw :: rest) ∧
      part ∈ walk (message_from_bytes lib raw) ∧
      decode_first lib (h_filename (headers part)) = ([], Ret name) ∧
      secure_filename lib name = f ∧
      get_payload_decode part = Some data ∧ data ≠ [] ∧
      cache' = <[mail_api.cache_key e f := data]> cache ∧
      r = match stdout with
          | None => Ret (mail_api.RFile data (Some (mime_type_of part)) f)
          | Some e' => Raise e'
          end).
Proof.
  unfold mail_api.download_attachment.
  destruct (str_truthy email_id) eqn:He; cbn [negb orb];
    [|intros [= <- <- <-]; left; split; [done|]; left; eauto].
  destruct (str_truthy filename) eqn:Hf; cbn [negb orb];
    [|intros [= <- <- <-]; left; split; [done|]; left; eauto].
  destruct email_id as [e|]; [|discriminate].
  destruct filename as [f|]; [|discriminate].
  cbn [default from_option id]. cbv zeta.
  unfold mbind at 1, MS_bind at 1, cache_lookup. cbn [fst snd].
  unfold mret at 1, M_ret at 1. cbv beta iota. cbn [fst snd].
  destruct (cache !! mail_api.cache_key e f) as [data|] eqn:Hc;
    cbv beta iota.
  { intros [= <- <- <-]. right. left. by exists e, f, data. }
  unfold mail_api.with_mail_st.
  destruct (imap_connect imap).
  { destruct stdout; cbn; intros [= <- <- <-]; left; (split; [done|]);
      [right|left]; eauto. }
  unfold finally_swallow_st, try_except_st.
  match goal with
  | |- context [(run (emit (ImapOpen true)) ;; ?b) cache] =>
      destruct ((run (emit (ImapOpen true)) ;; b) cache)
        as [c1 [t1 r1]] eqn:Hb
  end.
  assert (Hcases :
    (c1 = cache ∧
     ((∃ status msg, r1 = Ret (mail_api.RError status msg))
      ∨ ∃ e1, r1 = Raise e1)) ∨
    ∃ raw rest part name data,
      imap_fetch imap e "(RFC822)" = Ret (FPair raw :: rest) ∧
      part ∈ walk (message_from_bytes lib raw) ∧
      decode_first lib (h_filename (headers part)) = ([], Ret name) ∧
      secure_filename lib name = f ∧
      get_payload_decode part = Some data ∧ data ≠ [] ∧
      c1 = <[mail_api.cache_key e f := data]> cache ∧
      r1 = match stdout with
           | None => Ret (mail_api.RFile data (Some (mime_type_of part)) f)
           | Some e' => Raise e'
           end).
  { revert Hb.
    unfold mbind, MS_bind, run, emit, command, call, lift.
    cbn [fst snd].
    destruct (imap_login imap);
      [intros [= <- <- <-]; left; split; [done|]; right; eauto|].
    destruct (imap_select imap "inbox");
      [intros [= <- <- <-]; left; split; [done|]; right; eauto|].
    destruct (imap_fetch imap e "(RFC822)") as [[|[|raw] rest]|e0];
      cbn [fst snd first_raw].
    - intros [= <- <- <-]. left. split; [done|]. left. eauto.
    - intros [= <- <- <-]. left. split; [done|]. left. eauto.
    - destruct (mail_api.download_loop lib stdout (mail_api.cache_key e f)
                  f (walk (message_from_bytes lib raw)) cache)
        as [c2 [t2 r2]] eqn:Hl.
      cbn [fst snd]. intros [= <- <- <-].
      apply download_loop_inv in Hl
        as [_ [[-> [?|(e1 & -> & _)]]
              |(part & name & d & ?)]].
      + left. split; [done|]. by left.
      + left. split; [done|]. right. eauto.
      + right. by exists raw, rest, part, name, d.
    - intros [= <- <- <-]. left. split; [done|]. right. eauto. }
  clear Hb. cbn [fst snd].
  destruct Hcases as [[-> [(st & msg & ->)|(e1 & ->)]]
                     |(raw & rest & part & name & d & Hfetch & Hin & Hn
                       & Hs & Hp & Hne & -> & ->)].
  - cbn. intros [= <- <- <-]. left. split; [done|]. left. eauto.
  - destruct stdout; cbn; intros [= <- <- <-]; left; (split; [done|]);
      [right|left]; eauto.
  - destruct stdout; cbn; intros [= <- <- <-]; right; right;
      by exists e, f, raw, rest, part, name, d.
Qed.
End DownloadView.

(** A cached entry is served without any event, whatever the server, the
    library and the standard output are. *)
Lemma download_attachment_hit (lib : PyLib) (imap : ImapServer)
    (stdout : option exn) (cache : gmap string (list byte))
    (e f : string) (data : list byte) :
  str_truthy (Some e) = true → str_truthy (Some f) = true →
  cache !! mail_api.cache_key e f = Some data →
  mail_api.download_attachment lib imap stdout (Some e) (Some f) cache
  = (cache, ([], Ret (mail_api.RFile data None f))).
Proof.
  intros He Hf Hc. unfold mail_api.download_attachment.
  rewrite He, Hf. cbn [negb orb default from_option id]. cbv zeta.
  unfold mbind, MS_bind, cache_lookup. cbn [fst snd].
  unfold mret at 1, M_ret at 1. cbv beta iota. cbn [fst snd].
  by rewrite Hc.
Qed.

(** C4: when a call of [download_attachment] answers with a file, a
    second call with the same identifier and file name, on the cache the
    first call left, performs no event at all (no connection, no fetch,
    no decoding, whatever the server, the library and the standard
    output would do) and answers with the same bytes under the same
    name; the cache is unchanged. *)
Theorem C4_second_download_from_cache (lib : PyLib) (imap : ImapServer)
    (stdout : option exn)
    (cache : gmap string (list byte)) (email_id filename : option string)
    (t : list event) (cache' : gmap string (list byte))
    (data : list byte) (mimetype : option string) (name : string) :
  mail_api.download_attachment lib imap stdout email_id filename cache
  = (cache', (t, Ret (mail_api.RFile data mimetype name))) →
  ∀ (lib' : PyLib) (imap' : ImapServer) (stdout' : option exn),
    mail_api.download_attachment lib' imap' stdout' email_id filename cache'
    = (cache', ([], Ret (mail_api.RFile data None name))).
Proof.
  intros H lib' imap' stdout'.
  apply download_attachment_inv in H
    as [[_ [(st & msg & [=])|(e' & _ & [=])]]
       |[(e & f & d & -> & -> & He & Hf & Hc & _ & -> & [= -> _ ->])
        |(e & f & raw & rest & part & n & d & -> & -> & He & Hf & _
          & _ & _ & _ & _ & _ & _ & -> & Hr)]].
  - by apply download_attachment_hit.
  - destruct stdout; [discriminate|]. injection Hr as -> _ ->.
    apply download_attachment_hit; [done..|]. apply lookup_insert_eq.
Qed.

Lemma C4_witness :
  mail_api.download_attachment Fixtures.lib Fixtures.imap_down
    MoreFixtures.ascii_stdout (Some "7") (Some "a.txt")
    (<[mail_api.cache_key "7" "a.txt" := String.list_byte_of_string "hello"]> ∅)
  = (<[mail_api.cache_key "7" "a.txt"
       := String.list_byte_of_string "hello"]> ∅,
     ([], Ret (mail_api.RFile (String.list_byte_of_string "hello") None
                 "a.txt"))).
Proof.
  apply (C4_second_download_from_cache Fixtures.lib Fixtures.imap_report None
           ∅ (Some "7") (Some "a.txt")
           [ImapOpen true; ImapLogin; ImapSelect "inbox";
            ImapFetch "7" "(RFC822)"; ImapLogout]
           _ _ (Some "application/octet-stream")).
  vm_compute. reflexivity.
Defined.

(** C5, as the claim states it, fails: the cache is looked up with the
    file name of the request as it comes.  The cache holds the attachment
    of message 7 under its sanitized name [a.txt]; a request for
    [../a.txt], whose sanitized form is [a.txt], does not find it: the
    key that is looked up is [7_../a.txt], the server is contacted, and
    the answer is that there is no such attachment. *)
Lemma C5_lookup_with_request_filename :
  let hello := String.list_byte_of_string "hello" in
  let cache : gmap string (list byte) :=
    <[mail_api.cache_key "7" "a.txt" := hello]> ∅ in
  secure_filename Fixtures.lib "../a.txt" = "a.txt" ∧
  cache !! mail_api.cache_key "7" (secure_filename Fixtures.lib "../a.txt")
  = Some hello ∧
  mail_api.cache_key "7" "../a.txt" = "7_../a.txt" ∧
  mail_api.download_attachment Fixtures.lib Fixtures.imap_report None
    (Some "7") (Some "../a.txt") cache
  = (cache,
     ([ImapOpen true; ImapLogin; ImapSelect "inbox";
       ImapFetch "7" "(RFC822)"; ImapLogout],
      Ret (mail_api.RError 404 "未找到附件"))).
Proof. vm_compute. repeat split; reflexivity. Qed.

(** C5, amended: whenever [download_attachment] changes the cache, it
    stores the payload of a part of the fetched message under the key
    made of the identifier and of the sanitized ([secure_filename])
    decoded file name of that part, and it names the file of its response
    by that same sanitized name (when the [print] that follows the store
    raises there is no response: its exception leaves the view, and the
    entry stays).  The lookup is made with the file name of the request
    as it comes: when the cache holds an entry under the identifier and
    that name, the entry is the answer, named as requested. *)
Theorem C5_store_under_sanitized_name (lib : PyLib) (imap : ImapServer)
    (stdout : option exn)
    (cache : gmap string (list byte)) (email_id filename : option string)
    (t : list event) (cache' : gmap string (list byte))
    (r : result mail_api.response) :
  mail_api.download_attachment lib imap stdout email_id filename cache
  = (cache', (t, r)) →
  (cache' = cache ∨
   ∃ e raw rest part name data mime_type,
     email_id = Some e ∧
     imap_fetch imap e "(RFC822)" = Ret (FPair raw :: rest) ∧
     part ∈ walk (message_from_bytes lib raw) ∧
     decode_first lib (h_filename (headers part)) = ([], Ret name) ∧
     get_payload_decode part = Some data ∧
     cache' = <[mail_api.cache_key e (secure_filename lib name) := data]> cache ∧
     r = match stdout with
         | None => Ret (mail_api.RFile data (Some mime_type)
                          (secure_filename lib name))
         | Some e' => Raise e'
         end) ∧
  (∀ e f data,
      email_id = Some e → filename = Some f → e ≠ "" → f ≠ "" →
      cache !! mail_api.cache_key e f = Some data →
      t = [] ∧ cache' = cache ∧ r = Ret (mail_api.RFile data None f)).
Proof.
  intros H. split.
  - apply download_attachment_inv in H
      as [[-> _]
         |[(e & f & d & _ & _ & _ & _ & _ & _ & -> & _)
          |(e & f & raw & rest & part & n & d & -> & -> & _ & _ & _
            & Hfetch & Hin & Hn & <- & Hp & _ & -> & ->)]];
      [by left..|].
    right. by exists e, raw, rest, part, n, d, (mime_type_of part).
  - intros e f data -> -> He Hf Hc.
    rewrite (download_attachment_hit lib imap stdout cache e f data) in H;
      [| | |done].
    + by injection H as <- <- <-.
    + simpl. by apply negb_true_iff, String.eqb_neq.
    + simpl. by apply negb_true_iff, String.eqb_neq.
Qed.

Lemma C5_witness :
  let hello := String.list_byte_of_string "hello" in
  ∃ e raw rest part name data mime_type,
    Some "7" = Some e ∧
    imap_fetch Fixtures.imap_report e "(RFC822)" = Ret (FPair raw :: rest) ∧
    part ∈ walk (message_from_bytes Fixtures.lib raw) ∧
    decode_first Fixtures.lib (h_filename (headers part)) = ([], Ret name) ∧
    get_payload_decode part = Some data ∧
    <["7_a.txt" := hello]> (∅ : gmap string (list byte))
    = <[mail_api.cache_key e (secure_filename Fixtures.lib name) := data]> ∅ ∧
    Ret (mail_api.RFile hello (Some "application/octet-stream") "a.txt")
    = Ret (mail_api.RFile data (Some mime_type)
             (secure_filename Fixtures.lib name)).
Proof.
  intros hello.
  destruct (C5_store_under_sanitized_name Fixtures.lib Fixtures.imap_report
              None ∅ (Some "7") (Some "a.txt")
              [ImapOpen true; ImapLogin; ImapSelect "inbox";
               ImapFetch "7" "(RFC822)"; ImapLogout]
              (<["7_a.txt" := hello]> ∅)
              (Ret (mail_api.RFile hello (Some "application/octet-stream")
                      "a.txt"))) as [[Hsame|Hstore] _].
  - vm_compute. reflexivity.
  - exfalso. apply (f_equal (λ m : gmap string (list byte), m !! "7_a.txt"))
      in Hsame. vm_compute in Hsame. discriminate Hsame.
  - exact Hstore.
Defined.

(** ** Sending *)

(** C8, as the claim states it, fails on the second function it is
    about.  [MailClient.send_email] validates nothing and begins by
    connecting: called without a destination it opens the connection,
    logs in, and fails only when the relay is handed the message; no
    missing-fields error is returned.  In the view, the fields are read
    (lines 33-36) before they are tested: a request whose JSON body is
    [null] raises [AttributeError] and gets no missing-fields error
    either. *)
Lemma C8_send_email_connects_first :
  MailClient.send_email MoreFixtures.lib Fixtures.client
    MoreFixtures.smtp_none_recipient JNull (JStr "hi") (JStr "text") "plain"
  = ([SmtpOpen; SmtpEhlo; SmtpStarttls; SmtpLogin; SmtpSendmail],
     Raise (Exn "TypeError" "'NoneType' object is not iterable")) ∧
  mail_api.send_mail MoreFixtures.lib Fixtures.ok_smtp (Ret JNull)
  = ([], Raise (Exn "AttributeError"
                  "'NoneType' object has no attribute 'get'")).
Proof. split; vm_compute; reflexivity. Qed.

(** The trace of a sequence begins with the trace of its first
    computation. *)
Lemma bind_trace {A B} (m : M A) (f : A → M B) :
  ∃ t, (m ≫= f).1 = m.1 ++ t.
Proof.
  destruct m as [t [a|e]]; [|exists []; cbn; by rewrite app_nil_r].
  rewrite bind_ret. cbn [fst]. eauto.
Qed.

(** C8, amended: a send request whose JSON body is an object in which
    the destination, the subject or the body is missing, null or empty is
    answered by the view [send_mail] with the missing-fields error, and
    nothing is done on the network: the trace is empty.  The validation
    is the view's: [MailClient.send_email] begins by connecting to the
    relay whatever its arguments are. *)
Theorem C8_send_mail_validates_first (lib : PyLib) (smtp : SmtpServer)
    (data : gmap string jval) :
  truthy (data !! "to") = false ∨ truthy (data !! "subject") = false
  ∨ truthy (data !! "body") = false →
  mail_api.send_mail lib smtp (Ret (JObj data))
  = ([], Ret (mail_api.RError 400 "Missing required fields")) ∧
  (∀ (self : MailClient.t) (to_address subject body : jval)
     (subtype : string),
      match smtp_connect smtp with
      | None =>
          ∃ t, (MailClient.send_email lib self smtp to_address subject body
                  subtype).1 = SmtpOpen :: t
      | Some e =>
          MailClient.send_email lib self smtp to_address subject body subtype
          = ([], Raise e)
      end).
Proof.
  intros H. split.
  - unfold mail_api.send_mail. repeat (rewrite bind_lift_ret; cbn [py_get]; cbv beta).
    destruct H as [-> | [-> | ->]]; cbn [negb orb];
      by rewrite ?orb_true_r.
  - intros self to_address subject body subtype.
    unfold MailClient.send_email, MailClient.connect_smtp.
    destruct (smtp_connect smtp); [reflexivity|].
    destruct (bind_trace
                (open SmtpOpen None;;
                 command SmtpEhlo (smtp_ehlo smtp);;
                 command SmtpStarttls (smtp_starttls smtp);;
                 command SmtpLogin (smtp_login smtp))
                (λ _, msg ← lift (mime_as_string lib
                                    (MailClient.email_address self)
                                    to_address subject body subtype);
                      command SmtpSendmail
                        (smtp_sendmail smtp (MailClient.email_address self)
                           to_address msg);;
                      command SmtpQuit (smtp_quit smtp))) as [t1 ->].
    destruct (bind_trace (open SmtpOpen None)
                (λ _, command SmtpEhlo (smtp_ehlo smtp);;
                      command SmtpStarttls (smtp_starttls smtp);;
                      command SmtpLogin (smtp_login smtp))) as [t2 ->].
    cbn [open emit fst app]. eauto.
Qed.

Lemma C8_witness :
  mail_api.send_mail Fixtures.lib Fixtures.ok_smtp
    (Ret (JObj (<["to" := JStr "z@x.org"]>
                  (<["subject" := JStr "hi"]> (<["body" := JNull]> ∅)))))
  = ([], Ret (mail_api.RError 400 "Missing required fields")).
Proof.
  apply (C8_send_mail_validates_first Fixtures.lib Fixtures.ok_smtp).
  right. right. vm_compute. reflexivity.
Defined.

(** X10: [send_mail] reports success only after the whole dialogue with
    the relay: connection, EHLO, STARTTLS, login, the message handed
    over, and a QUIT that the relay answered. *)
Theorem X10_send_mail_success (lib : PyLib) (smtp : SmtpServer)
    (data : gmap string jval) (t : list event) (msg : string) :
  mail_api.send_mail lib smtp (Ret (JObj data))
  = (t, Ret (mail_api.RMessage msg)) →
  t = [SmtpOpen; SmtpEhlo; SmtpStarttls; SmtpLogin; SmtpSendmail; SmtpQuit] ∧
  smtp_quit smtp = None ∧
  truthy (data !! "to") = true ∧ truthy (data !! "subject") = true ∧
  truthy (data !! "body") = true.
Proof.
  unfold mail_api.send_mail, MailClient.send_email, MailClient.connect_smtp.
  repeat (rewrite bind_lift_ret; cbn [py_get]; cbv beta).
  destruct (truthy (data !! "to")), (truthy (data !! "subject")),
    (truthy (data !! "body")); try discriminate.
  cbn [negb orb].
  destruct (smtp_connect smtp), (smtp_ehlo smtp), (smtp_starttls smtp),
    (smtp_login smtp); try discriminate.
  cbn -[mime_as_string smtp_sendmail].
  destruct (mime_as_string lib _ _ _ _ _) as [m|e]; [|discriminate].
  cbn -[smtp_sendmail].
  destruct (smtp_sendmail smtp _ _ _); [discriminate|].
  destruct (smtp_quit smtp); [discriminate|].
  cbn. intros [= <- _]. done.
Qed.

Lemma X10_witness :
  [SmtpOpen; SmtpEhlo; SmtpStarttls; SmtpLogin; SmtpSendmail; SmtpQuit]
  = [SmtpOpen; SmtpEhlo; SmtpStarttls; SmtpLogin; SmtpSendmail; SmtpQuit] ∧
  smtp_quit Fixtures.ok_smtp = None ∧
  truthy (MoreFixtures.full_request !! "to") = true ∧
  truthy (MoreFixtures.full_request !! "subject") = true ∧
  truthy (MoreFixtures.full_request !! "body") = true.
Proof.
  apply (X10_send_mail_success Fixtures.lib Fixtures.ok_smtp
           MoreFixtures.full_request _ "Email sent successfully").
  vm_compute. reflexivity.
Defined.

(** X11: when the relay has accepted the message and the QUIT that
    follows raises, [send_mail] answers with the error 500 and the text
    of that exception, although the message was handed over. *)
Theorem X11_send_mail_quit_failure (lib : PyLib) (smtp : SmtpServer)
    (data : gmap string jval) (m : string) (e : exn) :
  truthy (data !! "to") = true → truthy (data !! "subject") = true →
  truthy (data !! "body") = true →
  smtp_connect smtp = None → smtp_ehlo smtp = None →
  smtp_starttls smtp = None → smtp_login smtp = None →
  mime_as_string lib mail_api.EMAIL_ADDRESS (default JNull (data !! "to"))
    (default JNull (data !! "subject")) (default JNull (data !! "body"))
    "plain" = Ret m →
  smtp_sendmail smtp mail_api.EMAIL_ADDRESS (default JNull (data !! "to")) m
  = None →
  smtp_quit smtp = Some e →
  mail_api.send_mail lib smtp (Ret (JObj data))
  = ([SmtpOpen; SmtpEhlo; SmtpStarttls; SmtpLogin; SmtpSendmail; SmtpQuit],
     Ret (mail_api.RError 500 (exn_str e))).
Proof.
  intros Ht Hs Hb Hc He Hst Hl Hm Hsend Hq.
  unfold mail_api.send_mail, MailClient.send_email, MailClient.connect_smtp.
  repeat (rewrite bind_lift_ret; cbn [py_get]; cbv beta).
  rewrite Ht, Hs, Hb, Hc, He, Hst, Hl. cbn [negb orb].
  cbn -[mime_as_string smtp_sendmail default].
  change (MailClient.email_address mail_api.mail_client)
    with mail_api.EMAIL_ADDRESS.
  rewrite Hm. cbn -[smtp_sendmail default].
  change (MailClient.email_address mail_api.mail_client)
    with mail_api.EMAIL_ADDRESS.
  rewrite Hsend, Hq. reflexivity.
Qed.

Lemma X11_witness :
  mail_api.send_mail Fixtures.lib MoreFixtures.smtp_quit_fails
    (Ret (JObj MoreFixtures.full_request))
  = ([SmtpOpen; SmtpEhlo; SmtpStarttls; SmtpLogin; SmtpSendmail; SmtpQuit],
     Ret (mail_api.RError 500 "Connection closed")).
Proof.
  eapply (X11_send_mail_quit_failure Fixtures.lib
            MoreFixtures.smtp_quit_fails MoreFixtures.full_request
            _ (Exn "SMTPServerDisconnected" "Connection closed"));
    vm_compute; reflexivity.
Defined.

(** ** The sizes of the manifest *)




(** * Further properties of the views and of the client *)

(** ** What the views let out *)

Lemma try_except_answers {A} (m : M A) (h : exn → M A) :
  (∀ e, ∃ a, (h e).2 = Ret a) → ∃ a, (try_except m h).2 = Ret a.
Proof.
  intros Hh. destruct m as [t [a|e]]; [by exists a|]. apply Hh.
Qed.

Lemma with_mail_answers {A} (imap : ImapServer) (body : M A)
    (h : exn → M A) :
  (∀ e, ∃ a, (h e).2 = Ret a) → ∃ a, (mail_api.with_mail imap body h).2 = Ret a.
Proof.
  intros Hh. unfold mail_api.with_mail.
  destruct (imap_connect imap); [apply Hh|].
  unfold finally_swallow. cbn [snd]. by apply try_except_answers.
Qed.

(** X1: [list_attachments] never raises and the generator of
    [/listmails] always ends normally, whatever the server and the
    library do.  [send_mail] raises exactly when [request.json] raises or
    gives a value that is not a dictionary, and then before anything is
    done on the network; on a dictionary it returns a response.  An
    exception that [download_attachment] lets out is the exception of a
    [print]: with a standard output that takes the text, it returns a
    response. *)
Theorem X1_exceptions_of_the_views (lib : PyLib) (imap : ImapServer)
    (smtp : SmtpServer) (stdout : option exn) (request_json : result jval)
    (cache : gmap string (list byte)) (email_id filename : option string) :
  (∃ r, (mail_api.list_attachments lib imap email_id).2 = Ret r) ∧
  (mail_api.generate lib imap).2 = Ret tt ∧
  match request_json with
  | Ret (JObj _) => ∃ r, (mail_api.send_mail lib smtp request_json).2 = Ret r
  | Ret data =>
      mail_api.send_mail lib smtp request_json
      = ([], Raise (Exn "AttributeError"
                      ("'" +:+ type_name data
                       +:+ "' object has no attribute 'get'")))
  | Raise e => mail_api.send_mail lib smtp request_json = ([], Raise e)
  end ∧
  (∀ e, (mail_api.download_attachment lib imap stdout email_id filename
           cache).2.2 = Raise e → stdout = Some e) ∧
  (stdout = None →
   ∃ r, (mail_api.download_attachment lib imap stdout email_id filename
           cache).2.2 = Ret r).
Proof.
  assert (Hd : ∀ e,
    (mail_api.download_attachment lib imap stdout email_id filename
       cache).2.2 = Raise e → stdout = Some e).
  { intros e.
    destruct (mail_api.download_attachment lib imap stdout email_id filename
                cache) as [c' [t r]] eqn:H.
    cbn [snd]. intros ->.
    apply download_attachment_inv in H
      as [[_ [(? & ? & [=])|(e' & -> & [= ->])]]
         |[(? & ? & ? & _ & _ & _ & _ & _ & _ & _ & [=])
          |(? & ? & ? & ? & ? & ? & ? & _ & _ & _ & _ & _ & _ & _ & _ & _
            & _ & _ & _ & Hr)]]; [done|].
    destruct stdout; [by injection Hr as ->|discriminate]. }
  split; [|split; [|split; [|split]]].
  - unfold mail_api.list_attachments.
    destruct (negb _); [by eexists|].
    apply with_mail_answers. intros e. by eexists.
  - unfold mail_api.generate.
    match goal with
    | |- (try_except ?m _).2 = _ => destruct m as [t [[]|e]]
    end; reflexivity.
  - destruct request_json as [data|e]; [|reflexivity].
    destruct data; try reflexivity.
    unfold mail_api.send_mail.
    repeat (rewrite bind_lift_ret; cbn [py_get]; cbv beta).
    destruct (_ || _); [by eexists|].
    apply try_except_answers. intros e. by eexists.
  - exact Hd.
  - intros ->.
    destruct (mail_api.download_attachment lib imap None email_id filename
                cache).2.2 as [r|e] eqn:H; [by exists r|].
    by specialize (Hd e eq_refl).
Qed.

Lemma X1_witness :
  MoreFixtures.ascii_stdout
  = Some (Exn "UnicodeEncodeError"
            "'ascii' codec can't encode characters in position 0-3").
Proof.
  refine (proj1 (proj2 (proj2 (proj2
            (X1_exceptions_of_the_views Fixtures.lib Fixtures.imap_report
               Fixtures.ok_smtp MoreFixtures.ascii_stdout (Ret JNull) ∅
               (Some "7") (Some "a.txt"))))) _ _).
  vm_compute. reflexivity.
Defined.

(** ** Connections of the views *)

Section BalancedDownload.
Context (lib : PyLib) (imap : ImapServer) (stdout : option exn).

Lemma quiet_st_bind {A B} (m : MS A) (f : A → MS B) :
  (∀ c, quiet (m c).2.1) → (∀ a c, quiet (f a c).2.1) →
  ∀ c, quiet ((m ≫= f) c).2.1.
Proof.
  intros Hm Hf c. unfold mbind, MS_bind. cbv zeta.
  specialize (Hm c). destruct (m c) as [c1 [t [a|e]]]; cbn [fst snd] in *;
    [|done].
  apply Forall_app. split; [done|apply Hf].
Qed.

Lemma download_loop_pure (key filename : string) (parts : list Message)
    (c : gmap string (list byte)) :
  (mail_api.download_loop lib stdout key filename parts c).2.1 = [].
Proof.
  destruct (mail_api.download_loop lib stdout key filename parts c)
    as [c' [t r]] eqn:H.
  by apply download_loop_inv in H as [-> _].
Qed.

(** [with_mail_st] closes the connection it opened, once, however the
    body ends, provided the body itself opens and closes nothing. *)
Lemma with_mail_st_balanced {A} (body : MS A) (handler : exn → MS A)
    (c : gmap string (list byte)) :
  (∀ c', quiet (body c').2.1) → (∀ e c', (handler e c').2.1 = []) →
  let t := (mail_api.with_mail_st imap body handler c).2.1 in
  opened t = closed t ∧
  (imap_connect imap = None → opened t = 1%nat) ∧
  (imap_connect imap ≠ None → t = []).
Proof.
  intros Hbody Hh. unfold mail_api.with_mail_st.
  destruct (imap_connect imap) as [e|].
  - cbv zeta. rewrite Hh. done.
  - unfold finally_swallow_st, try_except_st, mbind, MS_bind, run, emit,
      command, call.
    cbn [fst snd]. specialize (Hbody c).
    apply quiet_counts in Hbody as [Ho Hc].
    destruct (body c) as [c1 [tb [a|e]]]; cbn [fst snd] in *.
    + change (ImapOpen true :: tb) with ([ImapOpen true] ++ tb).
      rewrite !opened_app, !closed_app, Ho, Hc. done.
    + rewrite Hh, app_nil_r.
      change (ImapOpen true :: tb) with ([ImapOpen true] ++ tb).
      rewrite !opened_app, !closed_app, Ho, Hc. done.
Qed.

Lemma download_attachment_balanced (email_id filename : option string)
    (cache : gmap string (list byte)) :
  let t :=
    (mail_api.download_attachment lib imap stdout email_id filename
       cache).2.1 in
  opened t = closed t ∧ (opened t ≤ 1)%nat.
Proof.
  cbv zeta.
  remember (mail_api.download_attachment lib imap stdout email_id filename
              cache).2.1 as t eqn:Ht.
  revert Ht. unfold mail_api.download_attachment.
  destruct (_ || _); [intros ->; split; [reflexivity|cbv; lia]|].
  cbv zeta. unfold mbind at 1, MS_bind at 1, cache_lookup. cbn [fst snd].
  unfold mret at 1, M_ret at 1. cbv beta iota. cbn [fst snd].
  destruct (cache !! _); [intros ->; split; [reflexivity|cbv; lia]|].
  cbn [app]. intros ->.
  match goal with
  | |- context [mail_api.with_mail_st imap ?b ?h cache] =>
      destruct (with_mail_st_balanced b h cache) as (Heq & Hopen & Hnone)
  end.
  - apply quiet_st_bind; [intros c; by apply quiet_command|intros _].
    apply quiet_st_bind; [intros c; by apply quiet_command|intros _].
    apply quiet_st_bind; [intros c; by apply quiet_call|intros msg_data].
    destruct msg_data as [|[|raw] rest]; [intros c; by apply quiet_pure..|].
    apply quiet_st_bind; [intros c; by apply quiet_pure|intros raw' c].
    apply quiet_pure, download_loop_pure.
  - intros e c. by destruct stdout.
  - match goal with
    | |- context [mail_api.with_mail_st imap ?b ?h cache] =>
        destruct (mail_api.with_mail_st imap b h cache) as [c' [t r]]
    end.
    cbn [fst snd] in *. split; [done|].
    destruct (imap_connect imap) as [e|] eqn:E.
    + rewrite Hnone; [cbv; lia|done].
    + rewrite Hopen; [lia|done].
Qed.
End BalancedDownload.

(** X2: [list_attachments] and [download_attachment] close the
    connection they open, once, on every exit: in the trace of a call
    there is at most one connection opened, and as many logouts as
    connections opened. *)
Theorem X2_views_close_what_they_open (lib : PyLib) (imap : ImapServer)
    (stdout : option exn)
    (cache : gmap string (list byte)) (email_id filename : option string) :
  let t1 := (mail_api.list_attachments lib imap email_id).1 in
  let t2 :=
    (mail_api.download_attachment lib imap stdout email_id filename
       cache).2.1 in
  (opened t1 = closed t1 ∧ (opened t1 ≤ 1)%nat) ∧
  (opened t2 = closed t2 ∧ (opened t2 ≤ 1)%nat).
Proof.
  split; [apply list_attachments_balanced|apply download_attachment_balanced].
Qed.

(** ** Requests without their arguments *)

(** X14: [list_attachments] without a message identifier, and
    [download_attachment] without an identifier or without a file name
    (absent or empty), answer with an error 400 before anything is done
    on the network; the cache is neither read nor changed. *)
Theorem X14_missing_arguments (lib : PyLib) (imap : ImapServer)
    (stdout : option exn)
    (cache : gmap string (list byte)) (email_id filename : option string) :
  (str_truthy email_id = false →
   mail_api.list_attachments lib imap email_id
   = ([], Ret (mail_api.RError 400 "Missing email_id"))) ∧
  (str_truthy email_id = false ∨ str_truthy filename = false →
   mail_api.download_attachment lib imap stdout email_id filename cache
   = (cache, ([], Ret (mail_api.RError 400 "Missing email_id or filename")))).
Proof.
  split.
  - intros H. unfold mail_api.list_attachments. by rewrite H.
  - intros H. unfold mail_api.download_attachment.
    destruct H as [-> | ->]; [done|]. by rewrite orb_true_r.
Qed.

Lemma X14_witness :
  mail_api.list_attachments Fixtures.lib Fixtures.imap_report (Some "")
  = ([], Ret (mail_api.RError 400 "Missing email_id")) ∧
  mail_api.download_attachment Fixtures.lib Fixtures.imap_report
    MoreFixtures.ascii_stdout (Some "7") None ∅
  = (∅, ([], Ret (mail_api.RError 400 "Missing email_id or filename"))).
Proof.
  split.
  - apply (X14_missing_arguments Fixtures.lib Fixtures.imap_report None ∅
             (Some "") None). reflexivity.
  - apply (X14_missing_arguments Fixtures.lib Fixtures.imap_report
             MoreFixtures.ascii_stdout ∅ (Some "7") None).
    right. reflexivity.
Defined.

(** ** The cache across a call *)

(** X15: a call of [download_attachment] never removes nor replaces an
    entry of the cache, however it ends: the cache after the call
    extends the cache before it; the only key it may add is the key of
    the request; and when the answer is an error the cache is
    unchanged. *)
Theorem X15_cache_only_grows (lib : PyLib) (imap : ImapServer)
    (stdout : option exn)
    (cache : gmap string (list byte)) (email_id filename : option string)
    (t : list event) (cache' : gmap string (list byte))
    (r : result mail_api.response) :
  mail_api.download_attachment lib imap stdout email_id filename cache
  = (cache', (t, r)) →
  cache ⊆ cache' ∧
  (∀ k, k ≠ mail_api.cache_key (default "" email_id) (default "" filename) →
        cache' !! k = cache !! k) ∧
  (∀ status msg, r = Ret (mail_api.RError status msg) → cache' = cache).
Proof.
  intros H. apply download_attachment_inv in H
    as [[-> _]
       |[(e & f & d & _ & _ & _ & _ & _ & _ & -> & _)
        |(e & f & raw & rest & part & n & d & -> & -> & _ & _ & Hnone
          & _ & _ & _ & _ & _ & _ & -> & ->)]];
    [done..|].
  split; [by apply insert_subseteq|]. split.
  - intros k Hk. by rewrite lookup_insert_ne.
  - intros status msg. by destruct stdout.
Qed.

Lemma X15_witness :
  let cache' : gmap string (list byte) :=
    <[mail_api.cache_key "7" "a.txt" := String.list_byte_of_string "hello"]> ∅ in
  (∅ : gmap string (list byte)) ⊆ cache' ∧
  (∀ k, k ≠ mail_api.cache_key "7" "a.txt" →
        cache' !! k = (∅ : gmap string (list byte)) !! k) ∧
  (∀ status msg,
      Ret (mail_api.RFile (String.list_byte_of_string "hello")
             (Some "application/octet-stream") "a.txt")
      = Ret (mail_api.RError status msg) → cache' = ∅).
Proof.
  apply (X15_cache_only_grows Fixtures.lib Fixtures.imap_report None ∅
           (Some "7") (Some "a.txt")
           [ImapOpen true; ImapLogin; ImapSelect "inbox";
            ImapFetch "7" "(RFC822)"; ImapLogout]).
  vm_compute. reflexivity.
Defined.

(** X16: the cache never comes to hold an empty attachment.  If no entry
    of the cache is empty before a call of [download_attachment], none is
    after it, however the call ends, and a file that the call answers
    with is not empty. *)
Theorem X16_no_empty_attachment (lib : PyLib) (imap : ImapServer)
    (stdout : option exn)
    (cache : gmap string (list byte)) (email_id filename : option string)
    (t : list event) (cache' : gmap string (list byte))
    (r : result mail_api.response) :
  (∀ k d, cache !! k = Some d → d ≠ []) →
  mail_api.download_attachment lib imap stdout email_id filename cache
  = (cache', (t, r)) →
  (∀ k d, cache' !! k = Some d → d ≠ []) ∧
  (∀ data mimetype name,
      r = Ret (mail_api.RFile data mimetype name) → data ≠ []).
Proof.
  intros Hinv H. apply download_attachment_inv in H
    as [[-> [(st & msg & ->)|(e' & _ & ->)]]
       |[(e & f & d & _ & _ & _ & _ & Hc & _ & -> & ->)
        |(e & f & raw & rest & part & n & d & -> & -> & _ & _ & Hnone
          & _ & _ & _ & _ & _ & Hne & -> & ->)]];
    [by split..| |].
  - split; [done|]. intros ? ? ? [= <- _ _]. eauto.
  - split.
    + intros k d'.
      destruct (decide (k = mail_api.cache_key e f)) as [->|Hk].
      * rewrite lookup_insert_eq. by intros [= <-].
      * rewrite lookup_insert_ne by done. apply Hinv.
    + intros data mimetype name. destruct stdout; [done|].
      by intros [= <- _ _].
Qed.

Lemma X16_witness :
  let cache' : gmap string (list byte) :=
    <[mail_api.cache_key "7" "a.txt" := String.list_byte_of_string "hello"]> ∅ in
  (∀ k d, cache' !! k = Some d → d ≠ []) ∧
  (∀ data mimetype name,
      Ret (mail_api.RFile (String.list_byte_of_string "hello")
             (Some "application/octet-stream") "a.txt")
      = Ret (mail_api.RFile data mimetype name) → data ≠ []).
Proof.
  apply (X16_no_empty_attachment Fixtures.lib Fixtures.imap_report None ∅
           (Some "7") (Some "a.txt")
           [ImapOpen true; ImapLogin; ImapSelect "inbox";
            ImapFetch "7" "(RFC822)"; ImapLogout]).
  - intros k d Hk. by rewrite lookup_empty in Hk.
  - vm_compute. reflexivity.
Defined.

(** X22: when [download_attachment] raises, the exception is that of a
    [print] that the standard output refused.  Either the cache is as it
    was, or the refused [print] is the one that follows the store: then
    the attachment, which is not empty, is in the cache under the key of
    the request, and a second call with the same identifier and file
    name answers with it without any event, whatever the server, the
    library and the standard output do. *)
Theorem X22_refused_print_after_store (lib : PyLib) (imap : ImapServer)
    (stdout : option exn)
    (cache : gmap string (list byte)) (email_id filename : option string)
    (t : list event) (cache' : gmap string (list byte)) (e : exn) :
  mail_api.download_attachment lib imap stdout email_id filename cache
  = (cache', (t, Raise e)) →
  stdout = Some e ∧
  (cache' = cache ∨
   ∃ data,
     data ≠ [] ∧
     cache !! mail_api.cache_key (default "" email_id) (default "" filename)
     = None ∧
     cache' = <[mail_api.cache_key (default "" email_id)
                  (default "" filename) := data]> cache ∧
     ∀ (lib' : PyLib) (imap' : ImapServer) (stdout' : option exn),
       mail_api.download_attachment lib' imap' stdout' email_id filename
         cache'
       = (cache', ([], Ret (mail_api.RFile data None
                              (default "" filename))))).
Proof.
  intros H. apply download_attachment_inv in H
    as [[-> [(st & msg & [=])|(e' & -> & [= ->])]]
       |[(? & ? & ? & _ & _ & _ & _ & _ & _ & _ & [=])
        |(e0 & f & raw & rest & part & n & d & -> & -> & He & Hf & Hnone
          & _ & _ & _ & _ & _ & Hne & -> & Hr)]].
  - split; [done|by left].
  - destruct stdout as [e'|]; [|discriminate]. injection Hr as ->.
    split; [done|]. right. exists d. split; [done|]. split; [done|].
    split; [done|]. intros lib' imap' stdout'.
    apply download_attachment_hit; [done..|]. apply lookup_insert_eq.
Qed.

Lemma X22_witness :
  let hello := String.list_byte_of_string "hello" in
  let cache' : gmap string (list byte) := <["7_a.txt" := hello]> ∅ in
  mail_api.download_attachment Fixtures.lib Fixtures.imap_report
    MoreFixtures.ascii_stdout (Some "7") (Some "a.txt") ∅
  = (cache',
     ([ImapOpen true; ImapLogin; ImapSelect "inbox";
       ImapFetch "7" "(RFC822)"; ImapLogout],
      Raise (Exn "UnicodeEncodeError"
               "'ascii' codec can't encode characters in position 0-3"))) ∧
  mail_api.download_attachment Fixtures.lib Fixtures.imap_down
    MoreFixtures.ascii_stdout (Some "7") (Some "a.txt") cache'
  = (cache', ([], Ret (mail_api.RFile hello None "a.txt"))).
Proof.
  intros hello cache'.
  assert (H : mail_api.download_attachment Fixtures.lib Fixtures.imap_report
                MoreFixtures.ascii_stdout (Some "7") (Some "a.txt") ∅
              = (cache',
                 ([ImapOpen true; ImapLogin; ImapSelect "inbox";
                   ImapFetch "7" "(RFC822)"; ImapLogout],
                  Raise (Exn "UnicodeEncodeError"
                           "'ascii' codec can't encode characters in position 0-3"))))
    by (vm_compute; reflexivity).
  split; [exact H|].
  destruct (X22_refused_print_after_store _ _ _ _ _ _ _ _ _ H)
    as [_ [Hsame|(data & _ & _ & Hstore & Hnext)]].
  - exfalso. apply (f_equal (λ m : gmap string (list byte), m !! "7_a.txt"))
      in Hsame. vm_compute in Hsame. discriminate Hsame.
  - assert (data = hello) as ->.
    { apply (f_equal (λ m : gmap string (list byte), m !! "7_a.txt"))
        in Hstore. vm_compute in Hstore. by injection Hstore as <-. }
    apply Hnext.
Defined.

(** ** Sizes *)

Section RoundingMore.
Local Open Scope Q_scope.





End RoundingMore.



(** ** From the manifest to the download *)

(** A name of the manifest is found by the loop of the download, at the
    first part that answers to it. *)
Lemma download_loop_finds_listed (lib : PyLib) (stdout : option exn)
    (cache : gmap string (list byte)) (key : string)
    (parts : list Message) t (l : list mail_api.Attachment)
    (a : mail_api.Attachment) :
  for_append_opt (mail_api.list_attachments_part lib) parts = (t, Ret l) →
  a ∈ l →
  ∃ part,
    List.find (has_name lib (mail_api.filename a)) parts = Some part ∧
    mail_api.download_loop lib stdout key (mail_api.filename a) parts cache
    = match get_payload_decode part with
      | Some ((_ :: _) as data) =>
          (<[key := data]> cache,
           ([], match stdout with
                | None =>
                    Ret (mail_api.RFile data (Some (mime_type_of part))
                           (mail_api.filename a))
                | Some e => Raise e
                end))
      | _ => (cache, ([], Ret (mail_api.RError 404 "附件内容为空")))
      end.
Proof.
  revert t l. induction parts as [|part rest IH]; intros t l;
    cbn [for_append_opt].
  - intros [= _ <-] Hin. by apply elem_of_nil in Hin.
  - intros H Hin.
    apply bind_inv_ret in H as (t1 & o & ? & Ho & H & _).
    apply bind_inv_ret in H as (t2 & l' & ? & Hl & H & _).
    injection H as _ <-.
    cbn [mail_api.download_loop List.find]. unfold has_name at 1.
    apply list_attachments_part_ret in Ho
      as [[Hc ->]|[Hc (name & Hn & ->)]]; rewrite Hc; cbn [andb];
      unfold is_candidate in Hc.
    + destruct (String.eqb (h_maintype (headers part)) "multipart");
        [by eapply IH|].
      destruct (h_disposition (headers part)); [|by eapply IH].
      rewrite bool_decide_true in Hc by done. cbn [negb andb] in Hc.
      rewrite Hc. by eapply IH.
    + apply andb_true_iff in Hc as [Hc Hname].
      apply andb_true_iff in Hc as [Hmulti Hdisp].
      apply negb_true_iff in Hmulti. rewrite Hmulti.
      apply bool_decide_eq_true in Hdisp.
      destruct (h_disposition (headers part)); [|done].
      rewrite Hname, Hn. unfold mbind at 1, MS_bind at 1.
      unfold run. cbn [fst snd app].
      destruct (String.eqb_spec (secure_filename lib name)
                  (mail_api.filename a)) as [Hsame|Hdiff].
      * exists part. split; [done|].
        destruct (get_payload_decode part) as [[|b data]|]; [done| |done].
        by destruct stdout.
      * apply elem_of_cons in Hin as [->|Hin]; [done|].
        destruct (IH _ _ Hl Hin) as (p & Hfind & Hd).
        exists p. split; [done|]. rewrite <- Hd.
        by destruct (mail_api.download_loop lib stdout key
                       (mail_api.filename a) rest cache) as [c1 [tl rl]].
Qed.

(** X20: every non-empty name that [list_attachments] lists for a
    message can be asked from [download_attachment] for the same message.
    On a cache miss the download performs the same commands as the
    listing and stops at the first part of the message, in the order of
    [walk], whose sanitized decoded name is the requested one.  When the
    payload of that part is not empty, it is stored under the key of the
    request and it is the file of the answer (or, when the [print] that
    follows the store is refused, the exception of that [print] leaves
    the view); when it is empty or absent, the answer is the
    empty-attachment error.  The answer is never that the attachment was
    not found. *)
Theorem X20_listed_names_are_found (lib : PyLib) (imap : ImapServer)
    (stdout : option exn)
    (cache : gmap string (list byte)) (email_id : string)
    (t : list event) (l : list mail_api.Attachment)
    (a : mail_api.Attachment) :
  mail_api.list_attachments lib imap (Some email_id)
  = (t, Ret (mail_api.RAttachments l)) →
  a ∈ l → mail_api.filename a ≠ "" →
  cache !! mail_api.cache_key email_id (mail_api.filename a) = None →
  ∃ raw rest part,
    imap_fetch imap email_id "(RFC822)" = Ret (FPair raw :: rest) ∧
    List.find (has_name lib (mail_api.filename a))
      (walk (message_from_bytes lib raw)) = Some part ∧
    mail_api.download_attachment lib imap stdout (Some email_id)
      (Some (mail_api.filename a)) cache
    = match get_payload_decode part with
      | Some ((_ :: _) as data) =>
          (<[mail_api.cache_key email_id (mail_api.filename a) := data]>
             cache,
           (t, match stdout with
               | None =>
                   Ret (mail_api.RFile data (Some (mime_type_of part))
                          (mail_api.filename a))
               | Some e => Raise e
               end))
      | _ => (cache, (t, Ret (mail_api.RError 404 "附件内容为空")))
      end.
Proof.
  unfold mail_api.list_attachments, mail_api.download_attachment,
    mail_api.with_mail, mail_api.with_mail_st.
  intros H Hin Hname Hmiss.
  destruct (str_truthy (Some email_id)) eqn:Hid; [|discriminate].
  assert (Hf : str_truthy (Some (mail_api.filename a)) = true).
  { cbn. by apply negb_true_iff, String.eqb_neq. }
  rewrite Hf. cbn [negb orb default from_option id] in *. cbv zeta.
  unfold mbind at 1, MS_bind at 1, cache_lookup. cbn [fst snd].
  unfold mret at 1, M_ret at 1. cbv beta iota. cbn [fst snd].
  rewrite Hmiss.
  destruct (imap_connect imap); [discriminate|].
  apply finally_swallow_inv in H as (tb & H & ->).
  apply try_except_inv in H as [H | (? & ? & ? & _ & Hh & _)];
    [|discriminate Hh].
  apply bind_inv_ret in H as (t0 & [] & ? & H0 & H & ->).
  apply bind_inv_ret in H as (t1 & [] & ? & H1 & H & ->).
  apply bind_inv_ret in H as (t2 & [] & ? & H2 & H & ->).
  apply bind_inv_ret in H as (t3 & msg_data & ? & H3 & H & ->).
  apply bind_inv_ret in H as (t4 & raw & ? & H4 & H & ->).
  apply bind_inv_ret in H as (t5 & l' & ? & H5 & H & ->).
  injection H as <- <-.
  destruct msg_data as [|[|raw'] rest]; try discriminate.
  cbn [first_raw] in H4. injection H4 as <- ->.
  pose proof (for_append_opt_pure (mail_api.list_attachments_part lib)
                (walk (message_from_bytes lib raw))
                (list_attachments_part_pure lib)) as Hpure.
  rewrite H5 in Hpure. cbn in Hpure. subst t5.
  destruct (download_loop_finds_listed lib stdout cache
              (mail_api.cache_key email_id (mail_api.filename a))
              _ _ _ a H5 Hin) as (part & Hfind & Hd).
  exists raw, rest, part.
  unfold emit, command, call in H0, H1, H2, H3.
  destruct (imap_login imap); [discriminate H1|].
  destruct (imap_select imap "inbox"); [discriminate H2|].
  injection H0 as <-. injection H1 as <-. injection H2 as <-.
  injection H3 as <- ->.
  split; [done|]. split; [done|].
  cbv beta iota zeta delta
    [finally_swallow_st try_except_st mbind MS_bind run emit command call
     lift fst snd first_raw app].
  rewrite Hd.
  destruct (get_payload_decode part) as [[|b data]|];
    [by rewrite ?app_nil_r| |by rewrite ?app_nil_r].
  destruct stdout; cbn; by rewrite ?app_nil_r.
Qed.

Lemma X20_witness :
  let a := {| mail_api.filename := "a.txt";
              mail_api.size_kb := Qmake 0 100;
              mail_api.mime_type := "application/octet-stream" |} in
  let t := [ImapOpen true; ImapLogin; ImapSelect "inbox";
            ImapFetch "11" "(RFC822)"; ImapLogout] in
  ∃ raw rest part,
    imap_fetch MoreFixtures.imap_two "11" "(RFC822)"
    = Ret (FPair raw :: rest) ∧
    List.find (has_name MoreFixtures.lib (mail_api.filename a))
      (walk (message_from_bytes MoreFixtures.lib raw)) = Some part ∧
    mail_api.download_attachment MoreFixtures.lib MoreFixtures.imap_two
      MoreFixtures.ascii_stdout (Some "11") (Some (mail_api.filename a)) ∅
    = match get_payload_decode part with
      | Some ((_ :: _) as data) =>
          (<[mail_api.cache_key "11" (mail_api.filename a) := data]> ∅,
           (t, match MoreFixtures.ascii_stdout with
               | None =>
                   Ret (mail_api.RFile data (Some (mime_type_of part))
                          (mail_api.filename a))
               | Some e => Raise e
               end))
      | _ => (∅, (t, Ret (mail_api.RError 404 "附件内容为空")))
      end.
Proof.
  intros a t.
  apply (X20_listed_names_are_found MoreFixtures.lib MoreFixtures.imap_two
           MoreFixtures.ascii_stdout ∅ "11" t
           [a; {| mail_api.filename := "zeros.bin";
                  mail_api.size_kb := Qmake 1206 100;
                  mail_api.mime_type := "application/octet-stream" |}] a).
  - vm_compute. reflexivity.
  - by left.
  - discriminate.
  - reflexivity.
Defined.
